(** * Lead scoring and segmentation engine

    A shallow embedding of the pipeline of [src/feature_engineering.py]
    (cleaning, feature engineering, scoring), [src/export_leads.py]
    (per-vertical filtering) and [src/config.py] (weights and rules),
    followed by the properties of the specification that concern them.

    Conventions of the embedding:
    - a pandas frame is the list of its rows, a row is a record of its
      columns; a cell that may hold NaN is an [option];
    - Python [int] is [Z]; the float column [rating] is a rational [Q]
      (the code only compares it with [4.0]);
    - a Python [dict] is an association list in insertion order, with
      [dict_set] replacing the value of a key that is already there;
    - text is [string], read as ASCII: [lower] and [strip] act on ASCII
      letters and ASCII white space only;
    - a date is its proleptic ordinal (what [date.toordinal()] returns), so
      adding [timedelta(days=n)] is adding [n];
    - an exception is the [Raise] case of [result];
    - the library calls ([pd.cut], [str.split] with [expand=True],
      [Series.apply] on a categorical column, [head]) behave as in the 2.x
      releases of pandas. *)

From Stdlib Require Import ZArith List String Ascii Bool Lia QArith.
From Stdlib Require Import Permutation Sorted.
Import ListNotations.
Close Scope Q_scope.
Open Scope string_scope.
Open Scope list_scope.
Open Scope Z_scope.

(** ** Python values *)

Module Py.

(** [needle in hay] on [str]. *)
Fixpoint str_in (needle hay : string) : bool :=
  if prefix needle hay then true
  else match hay with
       | EmptyString => false
       | String _ hay' => str_in needle hay'
       end.

Definition lower_ascii (c : ascii) : ascii :=
  let n := nat_of_ascii c in
  if ((65 <=? n) && (n <=? 90))%nat then ascii_of_nat (n + 32) else c.

(** [s.lower()]. *)
Fixpoint lower (s : string) : string :=
  match s with
  | EmptyString => EmptyString
  | String c s' => String (lower_ascii c) (lower s')
  end.

(** [str(x)] of a text cell: a missing cell is the float NaN, printed [nan]. *)
Definition str (x : option string) : string :=
  match x with
  | Some s => s
  | None => "nan"
  end.

(** [any(term in s for term in terms)]. *)
Definition any_in (terms : list string) (s : string) : bool :=
  existsb (fun term => str_in term s) terms.

(** White space removed by [strip()]: tab, line feed, vertical tab, form
    feed, carriage return, the four separators 28..31 and the space. *)
Definition is_space (c : ascii) : bool :=
  let n := nat_of_ascii c in
  (((9 <=? n) && (n <=? 13)) || ((28 <=? n) && (n <=? 32)))%nat.

Fixpoint lstrip (s : string) : string :=
  match s with
  | EmptyString => EmptyString
  | String c s' => if is_space c then lstrip s' else s
  end.

Fixpoint rstrip (s : string) : string :=
  match s with
  | EmptyString => EmptyString
  | String c s' =>
      match rstrip s' with
      | EmptyString => if is_space c then EmptyString else String c EmptyString
      | r => String c r
      end
  end.

Definition strip (s : string) : string := rstrip (lstrip s).

(** [s.split(',')]: the parts between the commas, never an empty list. *)
Fixpoint split_comma (s : string) : list string :=
  match s with
  | EmptyString => [EmptyString]
  | String c s' =>
      if Ascii.eqb c "," then EmptyString :: split_comma s'
      else match split_comma s' with
           | [] => [String c EmptyString]
           | part :: parts => String c part :: parts
           end
  end.

(** Insertion-ordered dictionaries with [str] keys. *)
Definition dict (V : Type) : Type := list (string * V).

Fixpoint dict_get {V} (d : dict V) (k : string) : option V :=
  match d with
  | [] => None
  | (k', v) :: d' => if String.eqb k' k then Some v else dict_get d' k
  end.

(** [d[k] = v]. *)
Fixpoint dict_set {V} (d : dict V) (k : string) (v : V) : dict V :=
  match d with
  | [] => [(k, v)]
  | (k', v') :: d' =>
      if String.eqb k' k then (k, v) :: d' else (k', v') :: dict_set d' k v
  end.

Definition keys {V} (d : dict V) : list string := map fst d.
Definition values {V} (d : dict V) : list V := map snd d.

(** [sum(xs)] on integers. *)
Definition sum (xs : list Z) : Z := fold_right Z.add 0 xs.

(** A bin edge of [pd.cut]: a number or [np.inf]. *)
Inductive edge : Type :=
| Fin (z : Z)
| Inf.

Definition edge_lt (e : edge) (x : Z) : bool :=
  match e with Fin z => z <? x | Inf => false end.

Definition le_edge (x : Z) (e : edge) : bool :=
  match e with Fin z => x <=? z | Inf => true end.

(** [pd.cut(x, bins, labels)] with its defaults [right=True] and
    [include_lowest=False]: the label of the first interval [(lo, hi]] that
    holds [x], NaN when there is none. *)
Fixpoint cut {L} (bins : list edge) (labels : list L) (x : Z) : option L :=
  match bins, labels with
  | lo :: ((hi :: _) as bins'), label :: labels' =>
      if edge_lt lo x && le_edge x hi then Some label else cut bins' labels' x
  | _, _ => None
  end.

(** [df.head(n)]: the first [n] rows, all but the last [-n] for [n < 0]. *)
Definition head {A} (n : Z) (l : list A) : list A :=
  if 0 <=? n then firstn (Z.to_nat n) l
  else firstn (List.length l - Z.to_nat (- n)) l.

(** Exceptions the modelled code raises. *)
Inductive exn : Type :=
| FileNotFoundError
| KeyError
| AttributeError
| ValueError.

Inductive result (A : Type) : Type :=
| Ok (a : A)
| Raise (e : exn).
Arguments Ok {A} a.
Arguments Raise {A} e.

End Py.

(** ** [config.py] *)

Module Config.

Definition HIGH_DEMAND_CATEGORIES : list string :=
  ["pizza"; "chinese"; "mexican"; "sushi"; "thai"; "indian";
   "italian"; "japanese"; "korean"; "vietnamese";
   "grocery"; "supermarket"; "convenience"].

(** The keys of [SCORING_WEIGHTS]. *)
Record ScoringWeights : Type := {
  competitor_platform : Z;
  review_count_high : Z;
  review_count_medium : Z;
  review_count_low : Z;
  high_demand_category : Z;
  urban_location : Z;
  high_rating : Z;
  affordable_price : Z
}.

Definition SCORING_WEIGHTS : ScoringWeights := {|
  competitor_platform := 25;
  review_count_high := 20;
  review_count_medium := 15;
  review_count_low := 10;
  high_demand_category := 20;
  urban_location := 15;
  high_rating := 10;
  affordable_price := 10
|}.

Record VerticalRule : Type := {
  min_score : Z;
  target_count : Z;
  sla_days : Z;
  priority_categories : list string
}.

Definition VERTICAL_RULES : Py.dict VerticalRule :=
  [("restaurants",
    {| min_score := 50; target_count := 200; sla_days := 7;
       priority_categories := ["pizza"; "chinese"; "mexican"] |});
   ("grocery",
    {| min_score := 60; target_count := 100; sla_days := 14;
       priority_categories := ["grocery"; "supermarket"] |});
   ("retail",
    {| min_score := 55; target_count := 150; sla_days := 10;
       priority_categories := ["retail"; "shopping"; "convenience"] |})].

End Config.

(** ** Rows of the frames *)

(** A row of the raw CSV written by the collector. [fetched_at] is the date
    of the collection time stamp. The columns that no stage reads
    (coordinates, business status, source and query) are left out. *)
Module Raw.
Record t : Type := {
  place_id : option string;
  name : option string;
  address : option string;
  phone : option string;
  rating : option Q;
  review_count : option Z;
  price_level : option Z;
  types : option string;
  website : option string;
  source_location : option string;
  fetched_at : Z
}.
End Raw.

(** A row after [clean_data]: the filled columns can no longer be NaN;
    [city] and [state] are the two columns it adds. *)
Module Cleaned.
Record t : Type := {
  place_id : option string;
  name : option string;
  address : option string;
  phone : string;
  rating : Q;
  review_count : Z;
  price_level : Z;
  types : option string;
  website : string;
  source_location : option string;
  fetched_at : Z;
  city : option string;
  state : option string
}.
End Cleaned.

Fixpoint mapi_from {A B} (i : nat) (f : nat -> A -> B) (l : list A) : list B :=
  match l with
  | [] => []
  | x :: l' => f i x :: mapi_from (S i) f l'
  end.

(** Map over the rows with their position in the frame. *)
Definition mapi {A B} (f : nat -> A -> B) (l : list A) : list B :=
  mapi_from 0 f l.

(** ** [data_collection.py] *)

Module DataCollection.
Import Py.

(** The end of [collect_multi_city_data], once the collector has returned
    the frame [df]: an empty frame raises ValueError, any other is written
    to the raw data directory under a name made of the time stamp. The
    result is the file that is written. *)
Definition collect_multi_city_data (df : list Raw.t) (timestamp : string)
    : result (string * list Raw.t) :=
  match df with
  | [] => Raise ValueError
  | _ :: _ => Ok (("businesses_" ++ timestamp ++ ".csv")%string, df)
  end.

End DataCollection.

(** ** [feature_engineering.py] *)

Module FeatureEngineering.
Import Py.

(** *** [clean_data] *)

Definition fillna {A} (default : A) (cell : option A) : A :=
  match cell with
  | Some a => a
  | None => default
  end.

(** [df['source_location'].str.split(',', expand=True)], row by row: the
    parts of the text, NaN for a missing cell. *)
Definition location_split (df : list Raw.t) : list (option (list string)) :=
  map (fun r => option_map split_comma (Raw.source_location r)) df.

(** [len(location_split.columns)]: the longest row; a NaN row counts for one
    column, a frame without rows has no column. *)
Definition n_columns (split : list (option (list string))) : nat :=
  fold_right Nat.max 0%nat
    (map (fun cell => match cell with
                      | Some parts => List.length parts
                      | None => 1%nat
                      end) split).

(** [location_split[i]] for one row: shorter rows are padded with None. *)
Definition column (i : nat) (cell : option (list string)) : option string :=
  match cell with
  | Some parts => nth_error parts i
  | None => None
  end.

Definition clean_row (columns : nat) (r : Raw.t) : Cleaned.t :=
  let parts := option_map split_comma (Raw.source_location r) in
  {| Cleaned.place_id := Raw.place_id r;
     Cleaned.name := Raw.name r;
     Cleaned.address := Raw.address r;
     Cleaned.phone := fillna "" (Raw.phone r);
     Cleaned.rating := fillna 0%Q (Raw.rating r);
     Cleaned.review_count := fillna 0 (Raw.review_count r);
     Cleaned.price_level := fillna 0 (Raw.price_level r);
     Cleaned.types := Raw.types r;
     Cleaned.website := fillna "" (Raw.website r);
     Cleaned.source_location := Raw.source_location r;
     Cleaned.fetched_at := Raw.fetched_at r;
     Cleaned.city := option_map strip (column 0 parts);
     Cleaned.state :=
       if (1 <? columns)%nat then option_map strip (column 1 parts)
       else Some "" |}.

Definition is_missing {A} (cell : option A) : bool :=
  match cell with
  | Some _ => false
  | None => true
  end.

(** The frame comes from [pd.read_csv]: a [source_location] column that
    holds no text at all is a float column, on which [.str] raises
    AttributeError; on a frame without rows the split frame has no column and
    [location_split[0]] raises KeyError. No row is removed. *)
Definition clean_data (df : list Raw.t) : result (list Cleaned.t) :=
  match df with
  | [] => Raise KeyError
  | _ :: _ =>
      if forallb (fun r => is_missing (Raw.source_location r)) df
      then Raise AttributeError
      else Ok (map (clean_row (n_columns (location_split df))) df)
  end.

(** *** [engineer_features] *)

Record Featured : Type := {
  cleaned : Cleaned.t;
  high_demand_category : bool;
  review_volume : option string;
  is_affordable : bool;
  high_rating : bool;
  urban_location : bool;
  on_ubereats : bool;
  on_grubhub : bool;
  vertical : string
}.

Definition review_volume_bins : list edge := [Fin 0; Fin 50; Fin 200; Fin 500; Inf].
Definition review_volume_labels : list string := ["Very Low"; "Low"; "Medium"; "High"].

Definition urban_cities : list string :=
  ["San Francisco"; "New York"; "Chicago"; "Los Angeles"; "Seattle"].

(** [x in xs] on a list of texts. *)
Definition isin (x : string) (xs : list string) : bool :=
  existsb (String.eqb x) xs.

Definition classify_vertical (types_str : option string) : string :=
  let types_lower := lower (str types_str) in
  if any_in ["restaurant"; "food"; "meal_takeaway"; "meal_delivery"; "cafe"] types_lower
  then "restaurants"
  else if any_in ["grocery"; "supermarket"; "store"] types_lower
  then "grocery"
  else if any_in ["shopping"; "store"; "clothing_store"; "convenience_store"] types_lower
  then "retail"
  else "other".

(** One row of [engineer_features]. The two competitor columns are drawn by
    [np.random.choice]; the draws of the row are arguments. *)
Definition engineer_row (ubereats grubhub : bool) (r : Cleaned.t) : Featured :=
  {| cleaned := r;
     high_demand_category :=
       any_in Config.HIGH_DEMAND_CATEGORIES (lower (str (Cleaned.types r)));
     review_volume :=
       cut review_volume_bins review_volume_labels (Cleaned.review_count r);
     is_affordable :=
       existsb (Z.eqb (Cleaned.price_level r)) [0; 1; 2];
     high_rating := Qle_bool 4 (Cleaned.rating r);
     urban_location :=
       match Cleaned.city r with
       | Some c => isin c urban_cities
       | None => false
       end;
     on_ubereats := ubereats;
     on_grubhub := grubhub;
     vertical := classify_vertical (Cleaned.types r) |}.

(** [ubereats i] and [grubhub i] are the draws for the row at position [i]. *)
Definition engineer_features (ubereats grubhub : nat -> bool)
    (df : list Cleaned.t) : list Featured :=
  mapi (fun i r => engineer_row (ubereats i) (grubhub i) r) df.

(** *** [calculate_lead_score] *)

(** The columns [calculate_lead_score] adds. [score_breakdown] is kept as
    the dictionary that the code renders with [str]; a row without priority
    has no contact date either. *)
Record ScoredLead : Type := {
  featured : Featured;
  lead_score : Z;
  score_breakdown : dict Z;
  priority : option string;
  contact_by_date : option Z
}.

(** The body of the loop over the rows: [score] and [breakdown] after the
    six factors. The weights are the module's [SCORING_WEIGHTS], taken as an
    argument. *)
Definition score_row (weights : Config.ScoringWeights) (row : Featured)
    : Z * dict Z :=
  let score := 0 in
  let breakdown : dict Z := [] in
  let '(score, breakdown) :=
    if on_ubereats row || on_grubhub row then
      let points := Config.competitor_platform weights in
      (score + points, dict_set breakdown "Competitor Platform" points)
    else (score, breakdown) in
  let review_count := Cleaned.review_count (cleaned row) in
  let '(points, breakdown) :=
    if 500 <? review_count then
      let points := Config.review_count_high weights in
      (points, dict_set breakdown "Review Volume" points)
    else if 200 <? review_count then
      let points := Config.review_count_medium weights in
      (points, dict_set breakdown "Review Volume" points)
    else if 50 <? review_count then
      let points := Config.review_count_low weights in
      (points, dict_set breakdown "Review Volume" points)
    else
      let points := 5 in
      (points, dict_set breakdown "Review Volume" points) in
  let score := score + points in
  let '(score, breakdown) :=
    if high_demand_category row then
      let points := Config.high_demand_category weights in
      (score + points, dict_set breakdown "High Demand Category" points)
    else (score, breakdown) in
  let '(score, breakdown) :=
    if urban_location row then
      let points := Config.urban_location weights in
      (score + points, dict_set breakdown "Urban Location" points)
    else (score, breakdown) in
  let '(score, breakdown) :=
    if high_rating row then
      let points := Config.high_rating weights in
      (score + points, dict_set breakdown "High Rating" points)
    else (score, breakdown) in
  let '(score, breakdown) :=
    if is_affordable row then
      let points := Config.affordable_price weights in
      (score + points, dict_set breakdown "Affordable Price" points)
    else (score, breakdown) in
  (score, breakdown).

Definition priority_bins : list edge := [Fin 0; Fin 50; Fin 70; Fin 85; Fin 100].
Definition priority_labels : list string := ["Low"; "Medium"; "High"; "Critical"].

(** [today] is the date [datetime.now()] gives when the row is reached. *)
Definition get_contact_date (today : Z) (priority : option string) : Z :=
  let sla_days : dict Z :=
    [("Critical", 3); ("High", 7); ("Medium", 14); ("Low", 30)] in
  let days :=
    match dict_get sla_days (str priority) with
    | Some d => d
    | None => 30
    end in
  today + days.

Fixpoint code_from (i : nat) (categories : list string) (label : string)
    : option nat :=
  match categories with
  | [] => None
  | c :: categories' =>
      if String.eqb c label then Some i else code_from (S i) categories' label
  end.

(** The position of a label among the categories of a categorical column. *)
Definition code (categories : list string) (label : string) : option nat :=
  code_from 0 categories label.

(** [df['priority'].apply(get_contact_date)]. The column is categorical, so
    [apply] maps its categories: [get_contact_date] is called once for each
    label, in the order of the labels, and a row whose priority is NaN keeps
    NaN. [now i] is the date [datetime.now()] gives in the call for the label
    at position [i]. *)
Definition contact_dates (now : nat -> Z) : list Z :=
  mapi (fun i label => get_contact_date (now i) (Some label)) priority_labels.

Definition apply_get_contact_date (now : nat -> Z) (priority : option string)
    : option Z :=
  match priority with
  | None => None
  | Some label =>
      match code priority_labels label with
      | Some i => nth_error (contact_dates now) i
      | None => None
      end
  end.

Definition score_lead (weights : Config.ScoringWeights) (now : nat -> Z)
    (row : Featured) : ScoredLead :=
  let '(score, breakdown) := score_row weights row in
  let priority := cut priority_bins priority_labels score in
  {| featured := row;
     lead_score := score;
     score_breakdown := breakdown;
     priority := priority;
     contact_by_date := apply_get_contact_date now priority |}.

(** The float column [expected_conversion_prob], which nothing reads back
    into the score, is left out. *)
Definition calculate_lead_score (weights : Config.ScoringWeights)
    (now : nat -> Z) (df : list Featured) : list ScoredLead :=
  map (score_lead weights now) df.

(** *** [load_latest_raw_data] and [main] *)

(** What the run writes to its log, in order: the lines that mark the start
    and the end of the stages. *)
Inductive event : Type :=
| Loading (file : string)
| Loaded (records : nat)
| CleaningData
| DataCleaned (records : nat)
| EngineeringFeatures
| FeaturesEngineered (records : nat)
| CalculatingScores
| Scored (records : nat)
| Validation
| Saved (path : string)
| Completed (path : string)
| Failed (e : exn).

(** A computation that logs and may raise. *)
Definition M (A : Type) : Type := list event * result A.

Definition ret {A} (a : A) : M A := ([], Ok a).
Definition raise {A} (e : exn) : M A := ([], Raise e).
Definition log (ev : event) : M unit := ([ev], Ok tt).
Definition lift {A} (r : result A) : M A := ([], r).

Definition bind {A B} (m : M A) (f : A -> M B) : M B :=
  match m with
  | (l, Ok a) => let '(l', r) := f a in (l ++ l', r)
  | (l, Raise e) => (l, Raise e)
  end.

Notation "x <- m ;; k" := (bind m (fun x => k))
  (at level 61, m at next level, right associativity).
Notation "m ;;; k" := (bind m (fun _ => k))
  (at level 61, right associativity).

(** [s.endswith(suffix)]. *)
Fixpoint endswith (suffix s : string) : bool :=
  if String.eqb s suffix then true
  else match s with
       | EmptyString => false
       | String _ s' => endswith suffix s'
       end.

Fixpoint drop (n : nat) (s : string) : string :=
  match n, s with
  | O, _ => s
  | S n', String _ s' => drop n' s'
  | S _, EmptyString => EmptyString
  end.

(** A file name matched by the pattern [businesses_*.csv]. *)
Definition matches_pattern (file : string) : bool :=
  prefix "businesses_" file && endswith ".csv" (drop 11 file).

(** The raw data directory: file names with the rows of each CSV. *)
Definition directory : Type := list (string * list Raw.t).

Definition glob (dir : directory) : list (string * list Raw.t) :=
  filter (fun f => matches_pattern (fst f)) dir.

(** [max(files)]: the entry with the greatest name, the first of them. *)
Fixpoint max_file (latest : string * list Raw.t)
    (files : list (string * list Raw.t)) : string * list Raw.t :=
  match files with
  | [] => latest
  | f :: files' =>
      if String.ltb (fst latest) (fst f) then max_file f files'
      else max_file latest files'
  end.

Definition load_latest_raw_data (dir : directory) : M (list Raw.t) :=
  match glob dir with
  | [] => raise FileNotFoundError
  | f :: files =>
      let latest_file := max_file f files in
      log (Loading (fst latest_file)) ;;;
      let df := snd latest_file in
      log (Loaded (List.length df)) ;;;
      ret df
  end.

Section Main.

(** The two stages that are not embedded: the diagnostics of
    [validate_scoring_model] are floating point statistics, and
    [save_processed_data] writes the CSV and returns its path. *)
Variable validate_scoring_model : list ScoredLead -> M unit.
Variable save_processed_data : list ScoredLead -> M string.

(** The draws of [np.random.choice] and the clock. *)
Variable ubereats grubhub : nat -> bool.
Variable now : nat -> Z.

Definition run_clean_data (df : list Raw.t) : M (list Cleaned.t) :=
  log CleaningData ;;;
  out <- lift (clean_data df) ;;
  log (DataCleaned (List.length out)) ;;;
  ret out.

Definition run_engineer_features (df : list Cleaned.t) : M (list Featured) :=
  log EngineeringFeatures ;;;
  let out := engineer_features ubereats grubhub df in
  log (FeaturesEngineered (List.length out)) ;;;
  ret out.

Definition run_calculate_lead_score (df : list Featured) : M (list ScoredLead) :=
  log CalculatingScores ;;;
  let out := calculate_lead_score Config.SCORING_WEIGHTS now df in
  log (Scored (List.length out)) ;;;
  ret out.

(** [main]: the stages in order; an exception is logged and raised again. *)
Definition main (dir : directory) : M string :=
  let body :=
    df <- load_latest_raw_data dir ;;
    df <- run_clean_data df ;;
    df <- run_engineer_features df ;;
    df <- run_calculate_lead_score df ;;
    log Validation ;;;
    validate_scoring_model df ;;;
    output_path <- save_processed_data df ;;
    log (Completed output_path) ;;;
    ret output_path in
  match body with
  | (l, Ok output_path) => (l, Ok output_path)
  | (l, Raise e) => (l ++ [Failed e], Raise e)
  end.

End Main.

End FeatureEngineering.

(** ** [export_leads.py] *)

Module ExportLeads.
Import Py FeatureEngineering.

(** The [vertical] column of a scored lead. *)
Definition vertical_of (lead : ScoredLead) : string := vertical (featured lead).

(** Descending by [lead_score]: no lead is followed by one that scores more. *)
Definition descending (a b : ScoredLead) : Prop := lead_score b <= lead_score a.

(** [sort_values('lead_score', ascending=False)] with the default sorting
    algorithm, which promises no order among equal scores: any function that
    returns its argument rearranged in descending order of score. *)
Class SortValues : Type := {
  sort_values : list ScoredLead -> list ScoredLead;
  sort_values_perm : forall df, Permutation df (sort_values df);
  sort_values_sorted : forall df, StronglySorted descending (sort_values df)
}.

(** One such function, which keeps equal scores in the order of the frame. *)
Fixpoint insert_lead (x : ScoredLead) (l : list ScoredLead) : list ScoredLead :=
  match l with
  | [] => [x]
  | y :: l' =>
      if lead_score y <=? lead_score x then x :: l else y :: insert_lead x l'
  end.

Fixpoint insertion_sort (l : list ScoredLead) : list ScoredLead :=
  match l with
  | [] => []
  | x :: l' => insert_lead x (insertion_sort l')
  end.

Section Filters.

Context {sorting : SortValues}.

(** The body of the loop for a vertical that has leads: filter by the
    minimum score, sort, keep the first [target_count]. *)
Definition filter_vertical (rules : Config.VerticalRule)
    (df_vertical : list ScoredLead) : list ScoredLead :=
  let df_filtered :=
    filter (fun lead => Config.min_score rules <=? lead_score lead) df_vertical in
  let df_filtered := sort_values df_filtered in
  head (Config.target_count rules) df_filtered.

Fixpoint filters_loop (items : list (string * Config.VerticalRule))
    (df : list ScoredLead) (vertical_dfs : dict (list ScoredLead))
    : dict (list ScoredLead) :=
  match items with
  | [] => vertical_dfs
  | (vertical, rules) :: items' =>
      let df_vertical :=
        filter (fun lead => String.eqb (vertical_of lead) vertical) df in
      if (List.length df_vertical =? 0)%nat
      then filters_loop items' df vertical_dfs
      else filters_loop items' df
             (dict_set vertical_dfs vertical (filter_vertical rules df_vertical))
  end.

(** [apply_vertical_filters(df)], with [VERTICAL_RULES] as an argument. *)
Definition apply_vertical_filters (rules : dict Config.VerticalRule)
    (df : list ScoredLead) : dict (list ScoredLead) :=
  filters_loop rules df [].

(** The frames of a result put one after the other, in the order of the
    dictionary, as [pd.concat] does in [create_combined_export]. *)
Definition flatten (vertical_dfs : dict (list ScoredLead)) : list ScoredLead :=
  List.concat (values vertical_dfs).

End Filters.

End ExportLeads.

(** * Properties *)

(** ** Scoring *)

Section Scoring.
Import Py FeatureEngineering.

(** The points of the Review Volume factor. *)
Definition review_points (weights : Config.ScoringWeights) (review_count : Z) : Z :=
  if 500 <? review_count then Config.review_count_high weights
  else if 200 <? review_count then Config.review_count_medium weights
  else if 50 <? review_count then Config.review_count_low weights
  else 5.

(** The entry of a factor: present when its condition holds. *)
Definition entry (condition : bool) (factor : string) (points : Z) : dict Z :=
  if condition then [(factor, points)] else [].

Definition factor_names : list string :=
  ["Competitor Platform"; "Review Volume"; "High Demand Category";
   "Urban Location"; "High Rating"; "Affordable Price"].

(** The conditions and weights of the six factors of a row, in the order of
    the code. *)
Definition factors (weights : Config.ScoringWeights) (row : Featured)
    : list (bool * string * Z) :=
  [(on_ubereats row || on_grubhub row, "Competitor Platform",
    Config.competitor_platform weights);
   (true, "Review Volume",
    review_points weights (Cleaned.review_count (cleaned row)));
   (high_demand_category row, "High Demand Category",
    Config.high_demand_category weights);
   (urban_location row, "Urban Location", Config.urban_location weights);
   (high_rating row, "High Rating", Config.high_rating weights);
   (is_affordable row, "Affordable Price", Config.affordable_price weights)].

Definition contribution (factor : bool * string * Z) : Z :=
  let '(condition, _, points) := factor in
  if condition then points else 0.

Definition entries (fs : list (bool * string * Z)) : dict Z :=
  flat_map (fun '(condition, name, points) => entry condition name points) fs.

Lemma score_row_factors weights row :
  score_row weights row =
  (sum (map contribution (factors weights row)), entries (factors weights row)).
Proof.
  unfold score_row, factors, review_points.
  destruct (on_ubereats row || on_grubhub row), (high_demand_category row),
    (urban_location row), (high_rating row), (is_affordable row),
    (500 <? Cleaned.review_count (cleaned row)),
    (200 <? Cleaned.review_count (cleaned row)),
    (50 <? Cleaned.review_count (cleaned row));
    cbn -[Z.add]; f_equal; lia.
Qed.

Lemma lead_score_eq weights now row :
  lead_score (score_lead weights now row) = fst (score_row weights row).
Proof. unfold score_lead. destruct (score_row weights row). reflexivity. Qed.

Lemma score_breakdown_eq weights now row :
  score_breakdown (score_lead weights now row) = snd (score_row weights row).
Proof. unfold score_lead. destruct (score_row weights row). reflexivity. Qed.

Lemma priority_eq weights now row :
  priority (score_lead weights now row) =
  cut priority_bins priority_labels (lead_score (score_lead weights now row)).
Proof. unfold score_lead. destruct (score_row weights row). reflexivity. Qed.

Lemma contact_by_date_eq weights now row :
  contact_by_date (score_lead weights now row) =
  apply_get_contact_date now (priority (score_lead weights now row)).
Proof. unfold score_lead. destruct (score_row weights row). reflexivity. Qed.

Lemma featured_eq weights now row :
  featured (score_lead weights now row) = row.
Proof. unfold score_lead. destruct (score_row weights row). reflexivity. Qed.

Lemma review_points_shipped review_count :
  5 <= review_points Config.SCORING_WEIGHTS review_count <= 20.
Proof.
  unfold review_points.
  destruct (500 <? review_count), (200 <? review_count), (50 <? review_count);
    cbn; lia.
Qed.

(** A row of features over an otherwise empty record. *)
Definition sample_row (review_count : Z) (flags : bool) (fetched_at : Z)
    : Featured :=
  {| cleaned :=
       {| Cleaned.place_id := Some "p1"; Cleaned.name := Some "Sample";
          Cleaned.address := None; Cleaned.phone := "";
          Cleaned.rating := 0%Q; Cleaned.review_count := review_count;
          Cleaned.price_level := 3; Cleaned.types := None;
          Cleaned.website := ""; Cleaned.source_location := None;
          Cleaned.fetched_at := fetched_at;
          Cleaned.city := None; Cleaned.state := None |};
     high_demand_category := flags;
     review_volume :=
       cut review_volume_bins review_volume_labels review_count;
     is_affordable := flags;
     high_rating := flags;
     urban_location := flags;
     on_ubereats := flags;
     on_grubhub := flags;
     vertical := "other" |}.

(** Weights that exceed 100 in total, and weights that are all zero. *)
Definition generous_weights : Config.ScoringWeights :=
  {| Config.competitor_platform := 50; Config.review_count_high := 20;
     Config.review_count_medium := 15; Config.review_count_low := 10;
     Config.high_demand_category := 20; Config.urban_location := 15;
     Config.high_rating := 10; Config.affordable_price := 10 |}.

Definition zero_weights : Config.ScoringWeights :=
  {| Config.competitor_platform := 0; Config.review_count_high := 0;
     Config.review_count_medium := 0; Config.review_count_low := 0;
     Config.high_demand_category := 0; Config.urban_location := 0;
     Config.high_rating := 0; Config.affordable_price := 0 |}.

(** C1: for every row and all weights the lead score is the sum of the
    values of its breakdown; the breakdown has one entry for each factor
    whose condition holds and no other, Review Volume always being there
    with the weight of its branch or the flat 5; the score is the plain sum
    of the contributions, which is above 100 when the weights allow it. *)
Theorem score_equals_breakdown_sum :
  (forall weights now row,
     let lead := score_lead weights now row in
     let breakdown := score_breakdown lead in
     lead_score lead = sum (values breakdown)
     /\ NoDup (keys breakdown)
     /\ (forall condition name points,
           In (condition, name, points) (factors weights row) ->
           dict_get breakdown name = if condition then Some points else None)
     /\ (forall name, In name (keys breakdown) -> In name factor_names)
     /\ dict_get breakdown "Review Volume" =
          Some (review_points weights (Cleaned.review_count (cleaned row)))
     /\ lead_score lead = sum (map contribution (factors weights row)))
  /\ lead_score (score_lead generous_weights (fun _ => 0) (sample_row 600 true 0))
     = 125.
Proof.
  split; [| reflexivity].
  intros weights now row lead breakdown.
  subst lead breakdown.
  rewrite lead_score_eq, score_breakdown_eq, score_row_factors.
  cbn [fst snd]. unfold factors.
  set (rp := review_points weights (Cleaned.review_count (cleaned row))).
  destruct (on_ubereats row || on_grubhub row), (high_demand_category row),
    (urban_location row), (high_rating row), (is_affordable row);
    cbn -[In Z.add];
    (split; [lia |]);
    (split; [repeat constructor; cbn; intuition discriminate |]);
    (split; [intros c n p Hin; cbn in Hin;
             repeat (destruct Hin as [Hin | Hin];
                     [injection Hin as <- <- <-; reflexivity |]);
             contradiction |]);
    (split; [cbn; intuition |]);
    (split; [reflexivity | lia]).
Qed.

Lemma shipped_lead_range now row :
  let lead := score_lead Config.SCORING_WEIGHTS now row in
  (exists points,
     dict_get (score_breakdown lead) "Review Volume" = Some points
     /\ 5 <= points)
  /\ 5 <= lead_score lead <= 100.
Proof.
  cbn zeta.
  rewrite lead_score_eq, score_breakdown_eq, score_row_factors.
  cbn [fst snd]. unfold factors.
  pose proof (review_points_shipped (Cleaned.review_count (cleaned row))) as Hrp.
  set (rp := review_points _ _) in *.
  destruct (on_ubereats row || on_grubhub row), (high_demand_category row),
    (urban_location row), (high_rating row), (is_affordable row);
    cbn -[Z.add]; (split; [exists rp; split; [reflexivity | lia] | lia]).
Qed.

(** C10: with the shipped weights the Review Volume entry of every lead is
    at least 5 and every lead score lies between 5 and 100, so none is 0. *)
Theorem shipped_scores_between_5_and_100 :
  forall now df,
    Forall (fun lead =>
              (exists points,
                 dict_get (score_breakdown lead) "Review Volume" = Some points
                 /\ 5 <= points)
              /\ 5 <= lead_score lead <= 100
              /\ lead_score lead <> 0)
           (calculate_lead_score Config.SCORING_WEIGHTS now df).
Proof.
  intros now df. unfold calculate_lead_score.
  apply Forall_forall. intros lead Hin.
  apply in_map_iff in Hin. destruct Hin as [row [<- _]].
  destruct (shipped_lead_range now row) as [Hreview Hscore].
  split; [exact Hreview |]. split; [exact Hscore | lia].
Qed.

End Scoring.

(** ** Priority, review volume and contact date *)

Section Bins.
Import Py FeatureEngineering.

Lemma cut_priority score :
  cut priority_bins priority_labels score =
  if score <=? 0 then None
  else if score <=? 50 then Some "Low"
  else if score <=? 70 then Some "Medium"
  else if score <=? 85 then Some "High"
  else if score <=? 100 then Some "Critical"
  else None.
Proof.
  unfold priority_bins, priority_labels, cut, edge_lt, le_edge.
  destruct (Z.ltb_spec 0 score), (Z.leb_spec score 0),
    (Z.leb_spec score 50), (Z.ltb_spec 50 score),
    (Z.leb_spec score 70), (Z.ltb_spec 70 score),
    (Z.leb_spec score 85), (Z.ltb_spec 85 score),
    (Z.leb_spec score 100); cbn; try reflexivity; lia.
Qed.

Lemma cut_review_volume review_count :
  cut review_volume_bins review_volume_labels review_count =
  if review_count <=? 0 then None
  else if review_count <=? 50 then Some "Very Low"
  else if review_count <=? 200 then Some "Low"
  else if review_count <=? 500 then Some "Medium"
  else Some "High".
Proof.
  unfold review_volume_bins, review_volume_labels, cut, edge_lt, le_edge.
  destruct (Z.ltb_spec 0 review_count), (Z.leb_spec review_count 0),
    (Z.leb_spec review_count 50), (Z.ltb_spec 50 review_count),
    (Z.leb_spec review_count 200), (Z.ltb_spec 200 review_count),
    (Z.leb_spec review_count 500), (Z.ltb_spec 500 review_count);
    cbn; try reflexivity; lia.
Qed.

(** C2, as stated, fails: a score of 0 lies in no bin. With weights that
    are all zero a row with 600 reviews and no other factor scores 0, and
    its priority is NaN, not Low. *)
Lemma zero_score_has_no_priority :
  let lead := score_lead zero_weights (fun _ => 0) (sample_row 600 false 0) in
  lead_score lead = 0
  /\ priority lead = None
  /\ priority lead <> Some "Low".
Proof. cbn. repeat split. discriminate. Qed.

(** C2, amended: the priority of a lead depends on its score only, through
    the bins Low (0,50], Medium (50,70], High (70,85] and Critical (85,100];
    50 is Low and 51 is Medium; a score that is 0 or less, or above 100, has
    no priority; with the shipped weights every lead has one. *)
Theorem priority_bins_right_closed :
  (forall weights now row,
     let lead := score_lead weights now row in
     let score := lead_score lead in
     priority lead = cut priority_bins priority_labels score
     /\ (priority lead = Some "Low" <-> 0 < score <= 50)
     /\ (priority lead = Some "Medium" <-> 50 < score <= 70)
     /\ (priority lead = Some "High" <-> 70 < score <= 85)
     /\ (priority lead = Some "Critical" <-> 85 < score <= 100)
     /\ (priority lead = None <-> score <= 0 \/ 100 < score))
  /\ cut priority_bins priority_labels 50 = Some "Low"
  /\ cut priority_bins priority_labels 51 = Some "Medium"
  /\ (forall now row,
        priority (score_lead Config.SCORING_WEIGHTS now row) <> None).
Proof.
  assert (Hbins : forall weights now row,
     let lead := score_lead weights now row in
     let score := lead_score lead in
     priority lead = cut priority_bins priority_labels score
     /\ (priority lead = Some "Low" <-> 0 < score <= 50)
     /\ (priority lead = Some "Medium" <-> 50 < score <= 70)
     /\ (priority lead = Some "High" <-> 70 < score <= 85)
     /\ (priority lead = Some "Critical" <-> 85 < score <= 100)
     /\ (priority lead = None <-> score <= 0 \/ 100 < score)).
  { intros weights now row lead score. subst lead score.
    rewrite priority_eq.
    generalize (lead_score (score_lead weights now row)). intros score.
    split; [reflexivity |].
    rewrite cut_priority.
    destruct (Z.leb_spec score 0), (Z.leb_spec score 50),
      (Z.leb_spec score 70), (Z.leb_spec score 85), (Z.leb_spec score 100);
      repeat split; intros; try discriminate; try reflexivity; try lia. }
  split; [exact Hbins |].
  split; [reflexivity |]. split; [reflexivity |].
  intros now row Hnone.
  apply (Hbins Config.SCORING_WEIGHTS now row) in Hnone.
  destruct (shipped_lead_range now row) as [_ Hscore].
  lia.
Qed.

(** C3, as stated, fails: 50 reviews are in the Very Low bucket, not in the
    higher one. *)
Lemma fifty_reviews_are_very_low :
  let row := engineer_row false false (cleaned (sample_row 50 false 0)) in
  review_volume row = Some "Very Low"
  /\ review_volume row <> Some "Low".
Proof. cbn. split; [reflexivity | discriminate]. Qed.

(** C3, amended: the review volume bucket partitions the review count into
    the intervals Very Low (0,50], Low (50,200], Medium (200,500] and High
    above 500, open on the left and closed on the right, so 50, 200 and 500
    belong to the lower bucket; a count of 0 has no bucket; the Review Volume
    points of the scorer follow the same thresholds, with the flat 5 for the
    counts up to 50. *)
Theorem review_volume_right_closed :
  forall ubereats grubhub r weights,
    let row := engineer_row ubereats grubhub r in
    let n := Cleaned.review_count r in
    (review_volume row = Some "Very Low" <-> 0 < n <= 50)
    /\ (review_volume row = Some "Low" <-> 50 < n <= 200)
    /\ (review_volume row = Some "Medium" <-> 200 < n <= 500)
    /\ (review_volume row = Some "High" <-> 500 < n)
    /\ (review_volume row = None <-> n <= 0)
    /\ review_points weights n =
         match review_volume row with
         | Some "High" => Config.review_count_high weights
         | Some "Medium" => Config.review_count_medium weights
         | Some "Low" => Config.review_count_low weights
         | _ => 5
         end.
Proof.
  intros ubereats grubhub r weights row n. subst row n.
  cbn [review_volume engineer_row]. unfold review_points.
  rewrite cut_review_volume.
  generalize (Cleaned.review_count r). intros n.
  destruct (Z.leb_spec n 0), (Z.leb_spec n 50), (Z.leb_spec n 200),
    (Z.leb_spec n 500), (Z.ltb_spec 500 n), (Z.ltb_spec 200 n),
    (Z.ltb_spec 50 n);
    repeat split; intros; try discriminate; try reflexivity; try lia.
Qed.

(** The SLA offset of a priority label. *)
Definition sla_offset (label : string) : Z :=
  if String.eqb label "Critical" then 3
  else if String.eqb label "High" then 7
  else if String.eqb label "Medium" then 14
  else 30.

(** C4, as stated, fails: a record collected on day 100 and scored on day
    105 with priority Low is to be contacted by day 135, which is 30 days
    after the scoring, not 30 days after the collection. *)
Lemma contact_date_counts_from_scoring :
  let lead := score_lead Config.SCORING_WEIGHTS (fun _ => 105)
                (sample_row 0 false 100) in
  Cleaned.fetched_at (cleaned (featured lead)) = 100
  /\ priority lead = Some "Low"
  /\ contact_by_date lead = Some 135
  /\ contact_by_date lead
     <> Some (Cleaned.fetched_at (cleaned (featured lead)) + 30).
Proof. cbn. repeat split. discriminate. Qed.

(** C4, amended: the contact date of a lead that has a priority is the date
    the clock gives when the scoring runs, plus an offset that the priority
    alone determines: 3 days for Critical, 7 for High, 14 for Medium and 30
    for Low. *)
Theorem contact_date_from_priority :
  (forall today,
     get_contact_date today (Some "Critical") = today + 3
     /\ get_contact_date today (Some "High") = today + 7
     /\ get_contact_date today (Some "Medium") = today + 14
     /\ get_contact_date today (Some "Low") = today + 30)
  /\ (forall weights now row,
        let lead := score_lead weights now row in
        contact_by_date lead = apply_get_contact_date now (priority lead)
        /\ forall label,
             priority lead = Some label ->
             In label priority_labels
             /\ exists i, contact_by_date lead = Some (now i + sla_offset label))
  /\ (forall weights today row,
        let lead := score_lead weights (fun _ => today) row in
        forall label,
          priority lead = Some label ->
          contact_by_date lead = Some (today + sla_offset label)).
Proof.
  assert (Hrun : forall weights now row,
        let lead := score_lead weights now row in
        contact_by_date lead = apply_get_contact_date now (priority lead)
        /\ forall label,
             priority lead = Some label ->
             In label priority_labels
             /\ exists i, contact_by_date lead = Some (now i + sla_offset label)).
  { intros weights now row lead. subst lead.
    rewrite contact_by_date_eq. split; [reflexivity |].
    rewrite priority_eq, cut_priority.
    generalize (lead_score (score_lead weights now row)). intros score label.
    destruct (score <=? 0); [discriminate |].
    destruct (score <=? 50);
      [intros [= <-]; split; [cbn; tauto | exists 0%nat; reflexivity] |].
    destruct (score <=? 70);
      [intros [= <-]; split; [cbn; tauto | exists 1%nat; reflexivity] |].
    destruct (score <=? 85);
      [intros [= <-]; split; [cbn; tauto | exists 2%nat; reflexivity] |].
    destruct (score <=? 100);
      [intros [= <-]; split; [cbn; tauto | exists 3%nat; reflexivity] |].
    discriminate. }
  split; [intros today; repeat split |].
  split; [exact Hrun |].
  intros weights today row lead label Hlabel.
  destruct (Hrun weights (fun _ => today) row) as [_ H].
  destruct (H label Hlabel) as [_ [i Hi]]. exact Hi.
Qed.

End Bins.

(** ** Vertical classification *)

Section Vertical.
Import Py FeatureEngineering.

(** The rules of [classify_vertical] as an ordered table. *)
Definition restaurant_terms : list string :=
  ["restaurant"; "food"; "meal_takeaway"; "meal_delivery"; "cafe"].
Definition grocery_terms : list string := ["grocery"; "supermarket"; "store"].
Definition retail_terms : list string :=
  ["shopping"; "store"; "clothing_store"; "convenience_store"].

Definition vertical_rules : list (list string * string) :=
  [(restaurant_terms, "restaurants"); (grocery_terms, "grocery");
   (retail_terms, "retail")].

(** The vertical of the first rule one of whose terms occurs in the text. *)
Fixpoint first_match (rules : list (list string * string)) (s : string) : string :=
  match rules with
  | [] => "other"
  | (terms, v) :: rules' => if any_in terms s then v else first_match rules' s
  end.

(** C5: every record has exactly one vertical, the one of the first rule
    that matches its lower-cased tags in the order restaurants, grocery,
    retail, and other when none matches; a text that contains the shared
    term [store] and no restaurant term is grocery, never retail. *)
Theorem classify_vertical_first_match :
  forall types,
    let s := lower (str types) in
    let v := classify_vertical types in
    v = first_match vertical_rules s
    /\ In v ["restaurants"; "grocery"; "retail"; "other"]
    /\ (v = "restaurants" <-> any_in restaurant_terms s = true)
    /\ (v = "grocery" <->
        any_in restaurant_terms s = false /\ any_in grocery_terms s = true)
    /\ (v = "retail" <->
        any_in restaurant_terms s = false /\ any_in grocery_terms s = false
        /\ any_in retail_terms s = true)
    /\ (v = "other" <->
        any_in restaurant_terms s = false /\ any_in grocery_terms s = false
        /\ any_in retail_terms s = false)
    /\ (str_in "store" s = true ->
        v = if any_in restaurant_terms s then "restaurants" else "grocery")
    /\ (forall ubereats grubhub r,
          Cleaned.types r = types ->
          vertical (engineer_row ubereats grubhub r) = v).
Proof.
  intros types s v. subst v.
  unfold classify_vertical, vertical_rules, first_match.
  fold s. fold restaurant_terms grocery_terms retail_terms.
  assert (Hstore : str_in "store" s = true -> any_in grocery_terms s = true).
  { intros H. unfold any_in, grocery_terms. cbn [existsb]. rewrite H.
    rewrite !orb_true_r. reflexivity. }
  destruct (any_in restaurant_terms s) eqn:Hr, (any_in grocery_terms s) eqn:Hg,
    (any_in retail_terms s) eqn:Ht;
    (split; [reflexivity |]);
    (split; [cbn; tauto |]);
    repeat (split; [split; [intros; discriminate || (repeat split; reflexivity)
                           | intros; reflexivity || (intuition discriminate)] |]);
    (split; [intros H; try reflexivity; apply Hstore in H; discriminate |]);
    intros ubereats grubhub r <-; cbn [vertical engineer_row];
    unfold classify_vertical;
    fold restaurant_terms grocery_terms retail_terms; fold s;
    rewrite Hr, ?Hg, ?Ht; reflexivity.
Qed.

End Vertical.

(** ** Cleaning *)

Section Cleaning.
Import Py FeatureEngineering.

Lemma split_comma_not_nil s : split_comma s <> [].
Proof.
  destruct s as [| c s]; cbn; [discriminate |].
  destruct (Ascii.eqb c ","); [discriminate |].
  destruct (split_comma s); discriminate.
Qed.

Lemma comma_prefix c s :
  prefix "," (String c s) = Ascii.eqb c ",".
Proof.
  change (prefix "," (String c s))
    with (if ascii_dec "," c then prefix "" s else false).
  destruct (ascii_dec "," c) as [<- | Hne].
  - destruct s; reflexivity.
  - symmetry. apply Ascii.eqb_neq. congruence.
Qed.

(** A text with a comma has a second part. *)
Lemma split_comma_two_parts s :
  str_in "," s = true -> (2 <= List.length (split_comma s))%nat.
Proof.
  induction s as [| c s IH]; [discriminate |].
  cbn [str_in split_comma]. rewrite comma_prefix.
  destruct (Ascii.eqb c ",").
  - intros _. pose proof (split_comma_not_nil s).
    destruct (split_comma s); [contradiction | cbn; lia].
  - intros H. specialize (IH H).
    destruct (split_comma s); cbn in *; lia.
Qed.

(** A text without comma is its only part. *)
Lemma split_comma_one_part s :
  str_in "," s = false -> split_comma s = [s].
Proof.
  induction s as [| c s IH]; [reflexivity |].
  cbn [str_in split_comma]. rewrite comma_prefix.
  destruct (Ascii.eqb c ","); [discriminate |].
  intros H. rewrite (IH H). reflexivity.
Qed.

Lemma n_columns_bound df r s :
  In r df -> Raw.source_location r = Some s ->
  (List.length (split_comma s) <= n_columns (location_split df))%nat.
Proof.
  unfold n_columns, location_split.
  induction df as [| r' df IH]; [contradiction |].
  intros [-> | Hin] Hs; cbn.
  - rewrite Hs. cbn. lia.
  - specialize (IH Hin Hs). lia.
Qed.

Lemma n_columns_without_comma df :
  (forall r s, In r df -> Raw.source_location r = Some s ->
               str_in "," s = false) ->
  (n_columns (location_split df) <= 1)%nat.
Proof.
  unfold n_columns, location_split.
  induction df as [| r df IH]; intros Hno;
    cbn [map fold_right]; [lia |].
  assert (IH' := IH (fun r' s' Hin => Hno r' s' (or_intror Hin))).
  destruct (Raw.source_location r) as [s |] eqn:Hs; cbn [option_map].
  - rewrite (split_comma_one_part s (Hno r s (or_introl eq_refl) Hs)).
    cbn [List.length]. lia.
  - lia.
Qed.

(** What [clean_data] makes of a raw row. *)
Definition cleaned_from (df : list Raw.t) (r : Raw.t) (c : Cleaned.t) : Prop :=
  Cleaned.place_id c = Raw.place_id r
  /\ Cleaned.rating c = fillna 0%Q (Raw.rating r)
  /\ Cleaned.review_count c = fillna 0 (Raw.review_count r)
  /\ Cleaned.price_level c = fillna 0 (Raw.price_level r)
  /\ Cleaned.phone c = fillna "" (Raw.phone r)
  /\ Cleaned.website c = fillna "" (Raw.website r)
  /\ (forall s, Raw.source_location r = Some s ->
        exists city, Cleaned.city c = Some city)
  /\ (forall s, Raw.source_location r = Some s -> str_in "," s = true ->
        exists region, Cleaned.state c = Some region)
  /\ ((forall r' s', In r' df -> Raw.source_location r' = Some s' ->
                     str_in "," s' = false) ->
      Cleaned.state c = Some "").

Lemma clean_row_cleaned_from df r :
  In r df -> cleaned_from df r (clean_row (n_columns (location_split df)) r).
Proof.
  intros Hin. unfold cleaned_from, clean_row.
  cbn [Cleaned.place_id Cleaned.rating Cleaned.review_count
       Cleaned.price_level Cleaned.phone Cleaned.website Cleaned.city
       Cleaned.state].
  repeat (split; [reflexivity |]).
  split; [| split].
  - intros s Hs. rewrite Hs. cbn.
    pose proof (split_comma_not_nil s).
    destruct (split_comma s) as [| part parts]; [contradiction |].
    cbn. eauto.
  - intros s Hs Hcomma.
    pose proof (n_columns_bound df r s Hin Hs) as Hn.
    pose proof (split_comma_two_parts s Hcomma) as H2.
    destruct (Nat.ltb_spec 1 (n_columns (location_split df))); [| lia].
    rewrite Hs. cbn.
    destruct (split_comma s) as [| p0 [| p1 parts]]; cbn in H2; try lia.
    cbn. eauto.
  - intros Hno. pose proof (n_columns_without_comma df Hno).
    destruct (Nat.ltb_spec 1 (n_columns (location_split df))); [lia |].
    reflexivity.
Qed.

Definition sample_raw (place_id : option string)
    (source_location : option string) : Raw.t :=
  {| Raw.place_id := place_id; Raw.name := Some "Sample";
     Raw.address := None; Raw.phone := None; Raw.rating := None;
     Raw.review_count := None; Raw.price_level := None;
     Raw.types := Some "pizza_restaurant"; Raw.website := None;
     Raw.source_location := source_location; Raw.fetched_at := 100 |}.

(** C8, as stated, fails: a record that lacks an identifier is not dropped. *)
Lemma record_without_identifier_is_kept :
  let r := sample_raw None (Some "Chicago, IL") in
  Raw.place_id r = None
  /\ exists c, clean_data [r] = Ok [c]
       /\ Cleaned.place_id c = None
       /\ Cleaned.city c = Some "Chicago"
       /\ List.length [c] <> 0%nat.
Proof. cbn. split; [reflexivity |]. eexists. repeat split. discriminate. Qed.

(** C8, amended: for a frame that has rows, one of them with a source
    location, [clean_data] raises nothing and returns as many rows as it
    got, one for each record in order, so no record is dropped, with or
    without identifier; in each of them rating, review count and price level
    are the raw value or 0, phone and website the raw value or the empty
    text; the city is there when the source location is, the region when the
    source location has a comma, and the region is the empty text for all
    rows when no source location has a comma. *)
Theorem clean_data_keeps_every_record :
  forall df,
    df <> [] ->
    Exists (fun r => Raw.source_location r <> None) df ->
    exists out,
      clean_data df = Ok out
      /\ List.length out = List.length df
      /\ Forall2 (cleaned_from df) df out.
Proof.
  intros df Hne Hsome. unfold clean_data.
  destruct df as [| r0 df0] eqn:Hdf; [contradiction |]. rewrite <- Hdf in *.
  destruct (forallb _ df) eqn:Hall.
  - exfalso. rewrite forallb_forall in Hall.
    apply Exists_exists in Hsome. destruct Hsome as [r [Hin Hr]].
    specialize (Hall r Hin). destruct (Raw.source_location r);
      [discriminate | contradiction].
  - eexists. split; [reflexivity |]. split; [apply length_map |].
    clear Hall Hsome Hne Hdf.
    assert (H : forall l, incl l df ->
              Forall2 (cleaned_from df) l
                (map (clean_row (n_columns (location_split df))) l)).
    { induction l as [| r l IH]; intros Hincl; cbn; constructor.
      - apply clean_row_cleaned_from. apply Hincl. left. reflexivity.
      - apply IH. intros x Hx. apply Hincl. right. exact Hx. }
    apply H. apply incl_refl.
Qed.

Lemma clean_data_keeps_every_record_witness :
  exists out,
    clean_data [sample_raw None (Some "Chicago, IL");
                sample_raw (Some "p2") (Some "Seattle")] = Ok out
    /\ List.length out = 2%nat
    /\ Forall2 (cleaned_from [sample_raw None (Some "Chicago, IL");
                              sample_raw (Some "p2") (Some "Seattle")])
         [sample_raw None (Some "Chicago, IL");
          sample_raw (Some "p2") (Some "Seattle")] out.
Proof.
  apply (clean_data_keeps_every_record
           [sample_raw None (Some "Chicago, IL");
            sample_raw (Some "p2") (Some "Seattle")]).
  - discriminate.
  - constructor. cbn. discriminate.
Defined.

End Cleaning.

(** ** Loading and the run *)

Section Run.
Import Py FeatureEngineering.

Variable validate_scoring_model : list ScoredLead -> M unit.
Variable save_processed_data : list ScoredLead -> M string.
Variable ubereats grubhub : nat -> bool.
Variable now : nat -> Z.

(** A raw data directory whose only CSV has a header and no record. *)
Definition directory_with_empty_file : directory :=
  [("businesses_20250101_000000.csv", [])].

(** C9, amended: a collection without records makes the collector raise
    ValueError instead of writing a raw file; when no file of the raw data
    directory matches the pattern, [load_latest_raw_data] raises
    FileNotFoundError, and [main] logs the failure and raises it again: no
    stage has run and nothing is saved. *)
Theorem no_raw_file_aborts_before_any_stage :
  forall dir,
    glob dir = [] ->
    (forall timestamp,
       DataCollection.collect_multi_city_data [] timestamp = Raise ValueError)
    /\ load_latest_raw_data dir = ([], Raise FileNotFoundError)
    /\ main validate_scoring_model save_processed_data ubereats grubhub now dir
       = ([Failed FileNotFoundError], Raise FileNotFoundError).
Proof.
  intros dir Hglob. unfold main, load_latest_raw_data.
  rewrite Hglob. repeat split.
Qed.

End Run.

(** C9, as stated, fails: a raw file without records is an empty input
    collection that the loader accepts; it raises nothing, and the run goes
    on into the cleaning stage. *)
Lemma empty_file_reaches_the_cleaner :
  FeatureEngineering.load_latest_raw_data directory_with_empty_file
  = ([FeatureEngineering.Loading "businesses_20250101_000000.csv";
      FeatureEngineering.Loaded 0], Py.Ok [])
  /\ forall validate save ubereats grubhub now,
       exists log r,
         FeatureEngineering.main validate save ubereats grubhub now
           directory_with_empty_file
         = (FeatureEngineering.Loading "businesses_20250101_000000.csv"
            :: FeatureEngineering.Loaded 0
            :: FeatureEngineering.CleaningData :: log, r).
Proof.
  split; [reflexivity |].
  intros validate save ubereats grubhub now.
  eexists. eexists. cbn. reflexivity.
Qed.

Lemma no_raw_file_aborts_before_any_stage_witness :
  (forall timestamp,
     DataCollection.collect_multi_city_data [] timestamp
     = Py.Raise Py.ValueError)
  /\ FeatureEngineering.load_latest_raw_data
    [("notes.txt", [sample_raw (Some "p1") (Some "Chicago, IL")])]
  = ([], Py.Raise Py.FileNotFoundError)
  /\ FeatureEngineering.main
       (fun _ => FeatureEngineering.ret tt)
       (fun _ => FeatureEngineering.ret "scored_leads.csv")
       (fun _ => true) (fun _ => false) (fun _ => 0)
       [("notes.txt", [sample_raw (Some "p1") (Some "Chicago, IL")])]
     = ([FeatureEngineering.Failed Py.FileNotFoundError],
        Py.Raise Py.FileNotFoundError).
Proof.
  apply (no_raw_file_aborts_before_any_stage
           (fun _ => FeatureEngineering.ret tt)
           (fun _ => FeatureEngineering.ret "scored_leads.csv")
           (fun _ => true) (fun _ => false) (fun _ => 0)
           [("notes.txt", [sample_raw (Some "p1") (Some "Chicago, IL")])]).
  reflexivity.
Defined.

(** ** Filters by vertical *)

Section Dictionaries.
Import Py.
Context {V : Type}.

Lemma dict_get_set_eq (d : dict V) k v : dict_get (dict_set d k v) k = Some v.
Proof.
  induction d as [| [k' v'] d IH]; cbn.
  - rewrite String.eqb_refl. reflexivity.
  - destruct (String.eqb k' k) eqn:Hk; cbn.
    + rewrite String.eqb_refl. reflexivity.
    + rewrite Hk. exact IH.
Qed.

Lemma dict_get_set_ne (d : dict V) k k' v :
  k <> k' -> dict_get (dict_set d k v) k' = dict_get d k'.
Proof.
  intros Hne. induction d as [| [k0 v0] d IH]; cbn.
  - apply String.eqb_neq in Hne. rewrite Hne. reflexivity.
  - destruct (String.eqb k0 k) eqn:Hk; cbn.
    + apply String.eqb_eq in Hk. subst k0.
      apply String.eqb_neq in Hne. rewrite Hne. reflexivity.
    + destruct (String.eqb k0 k'); [reflexivity | exact IH].
Qed.

Lemma dict_get_fresh (d : dict V) k : ~ In k (keys d) -> dict_get d k = None.
Proof.
  induction d as [| [k' v'] d IH]; cbn; [reflexivity |].
  intros Hnot. destruct (String.eqb_spec k' k) as [-> | Hne].
  - exfalso. apply Hnot. left. reflexivity.
  - apply IH. intros Hin. apply Hnot. right. exact Hin.
Qed.

Lemma dict_get_in (d : dict V) k v :
  NoDup (keys d) -> In (k, v) d -> dict_get d k = Some v.
Proof.
  induction d as [| [k' v'] d IH]; cbn; [contradiction |].
  intros Hnd [Heq | Hin].
  - injection Heq as -> ->. rewrite String.eqb_refl. reflexivity.
  - inversion Hnd as [| ? ? Hnot Hnd']; subst.
    destruct (String.eqb_spec k' k) as [-> | Hne].
    + exfalso. apply Hnot. apply (in_map fst) in Hin. exact Hin.
    + apply IH; assumption.
Qed.

Lemma dict_get_some_in (d : dict V) k v : dict_get d k = Some v -> In (k, v) d.
Proof.
  induction d as [| [k' v'] d IH]; cbn; [discriminate |].
  destruct (String.eqb_spec k' k) as [-> | Hne].
  - intros [= ->]. left. reflexivity.
  - intros H. right. apply IH. exact H.
Qed.

Lemma dict_set_fresh (d : dict V) k v :
  ~ In k (keys d) -> dict_set d k v = d ++ [(k, v)].
Proof.
  induction d as [| [k' v'] d IH]; cbn; [reflexivity |].
  intros Hnot. destruct (String.eqb_spec k' k) as [-> | Hne].
  - exfalso. apply Hnot. left. reflexivity.
  - f_equal. apply IH. intros Hin. apply Hnot. right. exact Hin.
Qed.

End Dictionaries.

Section Lists.
Context {A : Type}.

Lemma filter_all (f : A -> bool) l :
  Forall (fun x => f x = true) l -> filter f l = l.
Proof.
  induction 1 as [| x l Hx _ IH]; cbn; [reflexivity |].
  rewrite Hx, IH. reflexivity.
Qed.

Lemma filter_none (f : A -> bool) l :
  Forall (fun x => f x = false) l -> filter f l = [].
Proof.
  induction 1 as [| x l Hx _ IH]; cbn; [reflexivity |].
  rewrite Hx. exact IH.
Qed.

Lemma flat_map_ext_in {B} (f g : A -> list B) l :
  (forall x, In x l -> f x = g x) -> flat_map f l = flat_map g l.
Proof.
  induction l as [| x l IH]; intros H; cbn; [reflexivity |].
  rewrite (H x (or_introl eq_refl)), IH; [reflexivity |].
  intros y Hy. apply H. right. exact Hy.
Qed.

Lemma filter_flat_map {B} (p : B -> bool) (f : A -> list B) l :
  filter p (flat_map f l) = flat_map (fun x => filter p (f x)) l.
Proof.
  induction l as [| x l IH]; cbn; [reflexivity |].
  rewrite filter_app, IH. reflexivity.
Qed.

Lemma head_firstn (n : Z) (l : list A) : exists k, Py.head n l = firstn k l.
Proof. unfold Py.head. destruct (0 <=? n); eauto. Qed.

Lemma head_length (n : Z) (l : list A) :
  0 <= n -> Z.of_nat (List.length (Py.head n l)) <= n.
Proof.
  intros Hn. unfold Py.head.
  destruct (Z.leb_spec 0 n); [| lia].
  pose proof (firstn_le_length (Z.to_nat n) l).
  rewrite length_firstn. lia.
Qed.

Lemma head_all (n : Z) (l : list A) :
  Z.of_nat (List.length l) <= n -> Py.head n l = l.
Proof.
  intros Hn. unfold Py.head.
  destruct (Z.leb_spec 0 n); [| lia].
  apply firstn_all2. lia.
Qed.

Lemma in_firstn k (l : list A) x : In x (firstn k l) -> In x l.
Proof.
  revert l. induction k as [| k IH]; intros [| y l]; cbn; try contradiction.
  intros [-> | Hin]; [left; reflexivity | right; apply IH; exact Hin].
Qed.

Lemma sorted_firstn (R : A -> A -> Prop) k l :
  StronglySorted R l -> StronglySorted R (firstn k l).
Proof.
  intros Hs. revert k. induction Hs as [| x l Hs IH Hx]; intros [| k]; cbn;
    try constructor.
  - apply IH.
  - apply Forall_forall. intros y Hy. apply in_firstn in Hy.
    rewrite Forall_forall in Hx. apply Hx. exact Hy.
Qed.

End Lists.

(** Two descending arrangements of the same integers are the same list. *)
Lemma descending_unique (l l' : list Z) :
  StronglySorted (fun a b => b <= a) l ->
  StronglySorted (fun a b => b <= a) l' ->
  Permutation l l' -> l = l'.
Proof.
  intros Hs. revert l'. induction Hs as [| x l Hs IH Hx]; intros l' Hs' Hp.
  - apply Permutation_nil in Hp. subst. reflexivity.
  - destruct l' as [| y l'].
    + apply Permutation_sym, Permutation_nil in Hp. discriminate.
    + inversion Hs' as [| ? ? Hs'' Hy]; subst.
      assert (Hxy : x = y).
      { assert (Hin : In x (y :: l')).
        { apply (Permutation_in _ Hp). left. reflexivity. }
        assert (Hin' : In y (x :: l)).
        { apply (Permutation_in _ (Permutation_sym Hp)). left. reflexivity. }
        rewrite Forall_forall in Hx, Hy.
        destruct Hin as [-> | Hin]; [reflexivity |].
        destruct Hin' as [-> | Hin']; [reflexivity |].
        specialize (Hx _ Hin'). specialize (Hy _ Hin). lia. }
      subst y. f_equal. apply IH; [exact Hs'' |].
      apply Permutation_cons_inv in Hp. exact Hp.
Qed.

Section StableSort.
Import Py FeatureEngineering ExportLeads.

Lemma insert_lead_perm x l : Permutation (x :: l) (insert_lead x l).
Proof.
  induction l as [| y l IH]; cbn; [reflexivity |].
  destruct (lead_score y <=? lead_score x); [reflexivity |].
  rewrite perm_swap. apply perm_skip. exact IH.
Qed.

Lemma insertion_sort_perm l : Permutation l (insertion_sort l).
Proof.
  induction l as [| x l IH]; cbn; [reflexivity |].
  rewrite <- insert_lead_perm. apply perm_skip. exact IH.
Qed.

Lemma insert_lead_sorted x l :
  StronglySorted descending l -> StronglySorted descending (insert_lead x l).
Proof.
  induction 1 as [| y l Hs IH Hy]; cbn.
  - repeat constructor.
  - destruct (Z.leb_spec (lead_score y) (lead_score x)) as [Hle | Hlt].
    + constructor; [constructor; assumption |].
      constructor; [exact Hle |].
      rewrite Forall_forall in *. intros z Hz. specialize (Hy z Hz).
      unfold descending in *. lia.
    + constructor; [exact IH |].
      rewrite Forall_forall in *. intros z Hz.
      apply (Permutation_in _ (Permutation_sym (insert_lead_perm x l))) in Hz.
      destruct Hz as [<- | Hz]; [unfold descending; lia | apply Hy; exact Hz].
Qed.

Lemma insertion_sort_sorted l : StronglySorted descending (insertion_sort l).
Proof.
  induction l as [| x l IH]; cbn; [constructor |].
  apply insert_lead_sorted. exact IH.
Qed.

(** The insertion sort leaves a frame that is in descending order as it is. *)
Lemma insertion_sort_sorted_id l :
  StronglySorted descending l -> insertion_sort l = l.
Proof.
  induction 1 as [| x l Hs IH Hx]; cbn; [reflexivity |].
  rewrite IH. destruct l as [| y l]; cbn; [reflexivity |].
  inversion Hx as [| ? ? Hxy _]; subst. unfold descending in Hxy.
  destruct (Z.leb_spec (lead_score y) (lead_score x)); [reflexivity | lia].
Qed.

Definition stable_sort : SortValues := {|
  sort_values := insertion_sort;
  sort_values_perm := insertion_sort_perm;
  sort_values_sorted := insertion_sort_sorted
|}.

End StableSort.

Section VerticalFilters.
Import Py FeatureEngineering ExportLeads.
Context {sorting : SortValues}.

(** The leads of a vertical, and the entry the loop adds for a rule. *)
Definition of_vertical (v : string) (df : list ScoredLead) : list ScoredLead :=
  filter (fun lead => String.eqb (vertical_of lead) v) df.

Definition vertical_entry (df : list ScoredLead)
    (item : string * Config.VerticalRule) : dict (list ScoredLead) :=
  let '(v, rules) := item in
  if (List.length (of_vertical v df) =? 0)%nat then []
  else [(v, filter_vertical rules (of_vertical v df))].

Lemma sort_values_nil : sort_values [] = [].
Proof. apply Permutation_nil. apply sort_values_perm. Qed.

Lemma filter_vertical_nil rules : filter_vertical rules [] = [].
Proof.
  unfold filter_vertical. cbn [filter]. rewrite sort_values_nil.
  destruct (head_firstn (Config.target_count rules) (@nil ScoredLead)) as [k ->].
  apply firstn_nil.
Qed.

Lemma filter_vertical_in rules df lead :
  In lead (filter_vertical rules df) ->
  In lead df /\ Config.min_score rules <= lead_score lead.
Proof.
  unfold filter_vertical. intros Hin.
  destruct (head_firstn (Config.target_count rules)
              (sort_values (filter (fun lead =>
                 Config.min_score rules <=? lead_score lead) df))) as [k Hk].
  rewrite Hk in Hin. apply in_firstn in Hin.
  apply (Permutation_in _ (Permutation_sym (sort_values_perm _))) in Hin.
  apply filter_In in Hin. destruct Hin as [Hin Hmin].
  split; [exact Hin | lia].
Qed.

Lemma filter_vertical_sorted rules df :
  StronglySorted descending (filter_vertical rules df).
Proof.
  unfold filter_vertical.
  destruct (head_firstn (Config.target_count rules)
              (sort_values (filter (fun lead =>
                 Config.min_score rules <=? lead_score lead) df))) as [k ->].
  apply sorted_firstn. apply sort_values_sorted.
Qed.

Lemma filter_vertical_length rules df :
  0 <= Config.target_count rules ->
  Z.of_nat (List.length (filter_vertical rules df)) <= Config.target_count rules.
Proof. intros H. unfold filter_vertical. apply head_length. exact H. Qed.

Lemma of_vertical_in v df lead :
  In lead (of_vertical v df) <-> In lead df /\ vertical_of lead = v.
Proof.
  unfold of_vertical. rewrite filter_In, String.eqb_eq. reflexivity.
Qed.

Lemma length_zero_nil {A} (l : list A) :
  (List.length l =? 0)%nat = true <-> l = [].
Proof.
  rewrite Nat.eqb_eq. destruct l; cbn; split; intros; try reflexivity;
    discriminate.
Qed.

(** What the loop leaves in the dictionary for a vertical. *)
Lemma filters_loop_get items df acc v :
  NoDup (keys items) ->
  dict_get (filters_loop items df acc) v =
  match dict_get items v with
  | Some rules =>
      if (List.length (of_vertical v df) =? 0)%nat then dict_get acc v
      else Some (filter_vertical rules (of_vertical v df))
  | None => dict_get acc v
  end.
Proof.
  revert acc. induction items as [| [k rules] items IH]; intros acc Hnd;
    [reflexivity |].
  inversion Hnd as [| ? ? Hnot Hnd']; subst.
  cbn [filters_loop dict_get]. fold (of_vertical k df).
  destruct (String.eqb_spec k v) as [-> | Hne].
  - destruct (List.length (of_vertical v df) =? 0)%nat;
      rewrite (IH _ Hnd'), (dict_get_fresh items v Hnot); [reflexivity |].
    apply dict_get_set_eq.
  - destruct (List.length (of_vertical k df) =? 0)%nat;
      rewrite (IH _ Hnd'); [reflexivity |].
    rewrite (dict_get_set_ne acc k v _ Hne). reflexivity.
Qed.

(** The dictionary the loop builds, entry by entry. *)
Lemma filters_loop_entries items df acc :
  NoDup (keys items) ->
  (forall k, In k (keys items) -> ~ In k (keys acc)) ->
  filters_loop items df acc = acc ++ flat_map (vertical_entry df) items.
Proof.
  revert acc. induction items as [| [k rules] items IH]; intros acc Hnd Hfresh.
  - cbn. rewrite app_nil_r. reflexivity.
  - inversion Hnd as [| ? ? Hnot Hnd']; subst.
    cbn [filters_loop flat_map vertical_entry]. fold (of_vertical k df).
    destruct (List.length (of_vertical k df) =? 0)%nat.
    + apply IH; [exact Hnd' |].
      intros k' Hk'. apply Hfresh. right. exact Hk'.
    + rewrite IH; [| exact Hnd' |].
      * rewrite dict_set_fresh; [| apply Hfresh; left; reflexivity].
        rewrite <- app_assoc. reflexivity.
      * intros k' Hk'.
        rewrite dict_set_fresh; [| apply Hfresh; left; reflexivity].
        unfold keys. rewrite map_app, in_app_iff. cbn.
        intros [Hin | [<- | []]].
        -- apply (Hfresh k'); [right; exact Hk' | exact Hin].
        -- apply Hnot. exact Hk'.
Qed.

Lemma apply_vertical_filters_entries rules df :
  NoDup (keys rules) ->
  apply_vertical_filters rules df = flat_map (vertical_entry df) rules.
Proof.
  intros Hnd. unfold apply_vertical_filters.
  rewrite filters_loop_entries; [reflexivity | exact Hnd | intros k _ []].
Qed.

(** What the rules ask of a result. *)
Definition respects_rules (rules : dict Config.VerticalRule)
    (df : list ScoredLead) (out : dict (list ScoredLead)) : Prop :=
  (forall v leads,
     dict_get out v = Some leads ->
     exists rule,
       dict_get rules v = Some rule
       /\ (0 <= Config.target_count rule ->
           Z.of_nat (List.length leads) <= Config.target_count rule)
       /\ Forall (fun lead =>
                    Config.min_score rule <= lead_score lead
                    /\ vertical_of lead = v /\ In lead df) leads
       /\ StronglySorted descending leads)
  /\ (forall v, of_vertical v df = [] -> dict_get out v = None)
  /\ (forall v, dict_get out v <> None <->
                dict_get rules v <> None /\ of_vertical v df <> []).

(** C6: in the result of [apply_vertical_filters] every vertical that is
    present has a rule, holds at most the target count of the rule (a count
    that is not negative), only leads of the vertical whose score is at
    least the minimum score, in descending order of score; a vertical
    without leads is left out, and nothing is raised. *)
Theorem vertical_filters_respect_rules :
  forall rules df,
    NoDup (keys rules) ->
    respects_rules rules df (apply_vertical_filters rules df).
Proof.
  intros rules df Hnd. unfold respects_rules, apply_vertical_filters.
  split; [| split].
  - intros v leads. rewrite (filters_loop_get rules df [] v Hnd).
    destruct (dict_get rules v) as [rule |]; [| discriminate].
    destruct (List.length (of_vertical v df) =? 0)%nat; [discriminate |].
    intros [= <-]. exists rule. split; [reflexivity |].
    split; [apply filter_vertical_length |].
    split; [| apply filter_vertical_sorted].
    apply Forall_forall. intros lead Hin.
    apply filter_vertical_in in Hin. destruct Hin as [Hin Hmin].
    apply of_vertical_in in Hin. tauto.
  - intros v Hempty. rewrite (filters_loop_get rules df [] v Hnd).
    rewrite Hempty. cbn. destruct (dict_get rules v); reflexivity.
  - intros v. rewrite (filters_loop_get rules df [] v Hnd).
    destruct (dict_get rules v) as [rule |].
    + destruct (List.length (of_vertical v df) =? 0)%nat eqn:Hlen.
      * apply length_zero_nil in Hlen. rewrite Hlen. cbn. tauto.
      * assert (of_vertical v df <> []).
        { intros H. apply length_zero_nil in H. congruence. }
        split; [intros _; split; [discriminate | assumption] | discriminate].
    + cbn. tauto.
Qed.

End VerticalFilters.

(** ** Applying the filters to their own result *)

Section Rerun.
Import Py FeatureEngineering ExportLeads.
Context {sorting : SortValues}.

Lemma flatten_app (a b : dict (list ScoredLead)) :
  flatten (a ++ b) = flatten a ++ flatten b.
Proof. unfold flatten, values. rewrite map_app, concat_app. reflexivity. Qed.

Lemma filter_vertical_of_vertical rules v df :
  Forall (fun lead => vertical_of lead = v)
    (filter_vertical rules (of_vertical v df)).
Proof.
  apply Forall_forall. intros lead Hin.
  apply filter_vertical_in in Hin. destruct Hin as [Hin _].
  apply of_vertical_in in Hin. tauto.
Qed.

(** The leads of a vertical in the flattened result are the frame of that
    vertical. *)
Lemma of_vertical_flatten rules df v :
  NoDup (keys rules) ->
  of_vertical v (flatten (flat_map (vertical_entry df) rules)) =
  match dict_get rules v with
  | Some rule => filter_vertical rule (of_vertical v df)
  | None => []
  end.
Proof.
  induction rules as [| [k rule] rules IH]; intros Hnd; [reflexivity |].
  inversion Hnd as [| ? ? Hnot Hnd']; subst.
  cbn [flat_map dict_get]. rewrite flatten_app.
  unfold of_vertical at 1. rewrite filter_app.
  fold (of_vertical v (flatten (vertical_entry df (k, rule)))).
  fold (of_vertical v (flatten (flat_map (vertical_entry df) rules))).
  rewrite (IH Hnd'). cbn [vertical_entry].
  destruct (String.eqb_spec k v) as [-> | Hne].
  - rewrite (dict_get_fresh rules v Hnot), app_nil_r.
    destruct (List.length (of_vertical v df) =? 0)%nat eqn:Hlen.
    + apply length_zero_nil in Hlen. rewrite Hlen, filter_vertical_nil.
      reflexivity.
    + unfold flatten, values. cbn [map snd List.concat]. rewrite app_nil_r.
      apply filter_all.
      eapply Forall_impl; [| apply filter_vertical_of_vertical].
      cbn. intros lead ->. apply String.eqb_refl.
  - destruct (List.length (of_vertical k df) =? 0)%nat; [reflexivity |].
    unfold flatten, values. cbn [map snd List.concat]. rewrite app_nil_r.
    unfold of_vertical at 1. rewrite filter_none; [reflexivity |].
    eapply Forall_impl; [| apply filter_vertical_of_vertical].
    cbn. intros lead ->. apply String.eqb_neq. exact Hne.
Qed.

(** Filtering a filtered frame again only sorts it again. *)
Lemma filter_vertical_again rule df :
  0 <= Config.target_count rule ->
  filter_vertical rule (filter_vertical rule df) =
  sort_values (filter_vertical rule df).
Proof.
  intros Htc. unfold filter_vertical at 1.
  rewrite filter_all.
  - apply head_all.
    rewrite <- (Permutation_length (sort_values_perm _)).
    apply filter_vertical_length. exact Htc.
  - apply Forall_forall. intros lead Hin.
    apply filter_vertical_in in Hin. apply Z.leb_le. tauto.
Qed.

Lemma descending_scores l :
  StronglySorted descending l ->
  StronglySorted (fun a b => b <= a) (map lead_score l).
Proof.
  induction 1 as [| x l Hs IH Hx]; cbn; constructor; [exact IH |].
  apply Forall_forall. intros s Hs'. apply in_map_iff in Hs'.
  destruct Hs' as [y [<- Hy]]. rewrite Forall_forall in Hx.
  apply Hx. exact Hy.
Qed.

Lemma sort_values_scores l :
  StronglySorted descending l ->
  map lead_score (sort_values l) = map lead_score l.
Proof.
  intros Hs. apply descending_unique.
  - apply descending_scores, sort_values_sorted.
  - apply descending_scores, Hs.
  - apply Permutation_map, Permutation_sym, sort_values_perm.
Qed.

(** The filters applied to the flattened result of the filters. *)
Definition rerun (rules : dict Config.VerticalRule) (df : list ScoredLead)
    : dict (list ScoredLead) :=
  apply_vertical_filters rules (flatten (apply_vertical_filters rules df)).

(** A result without its empty frames. *)
Definition nonempty_entries (out : dict (list ScoredLead))
    : dict (list ScoredLead) :=
  filter (fun item => negb (List.length (snd item) =? 0)%nat) out.

Definition rerun_agrees (rules : dict Config.VerticalRule)
    (df : list ScoredLead) : Prop :=
  let out := apply_vertical_filters rules df in
  let again := rerun rules df in
  (forall v, dict_get again v = None <->
             dict_get out v = None \/ dict_get out v = Some [])
  /\ (forall v leads,
        dict_get out v = Some leads -> leads <> [] ->
        exists leads',
          dict_get again v = Some leads'
          /\ Permutation leads leads'
          /\ map lead_score leads' = map lead_score leads)
  /\ ((forall l, StronglySorted descending l -> sort_values l = l) ->
      again = nonempty_entries out).

Lemma rerun_get rules df v :
  NoDup (keys rules) ->
  dict_get (rerun rules df) v =
  match dict_get rules v with
  | Some rule =>
      let kept := filter_vertical rule (of_vertical v df) in
      if (List.length kept =? 0)%nat then None
      else Some (filter_vertical rule kept)
  | None => None
  end.
Proof.
  intros Hnd. unfold rerun.
  rewrite (apply_vertical_filters_entries rules df Hnd).
  unfold apply_vertical_filters. rewrite (filters_loop_get _ _ [] v Hnd).
  rewrite (of_vertical_flatten rules df v Hnd).
  destruct (dict_get rules v); reflexivity.
Qed.

(** C7, amended: with target counts that are not negative, applying the
    filters to their flattened result gives, for every vertical whose frame
    in the result is not empty, a frame with the same leads and the same
    scores in the same order, which is the same frame when the sort leaves a
    sorted frame as it is; the verticals whose frame is empty are no longer
    there. *)
Theorem rerun_keeps_nonempty_verticals :
  forall rules df,
    NoDup (keys rules) ->
    (forall v rule, In (v, rule) rules -> 0 <= Config.target_count rule) ->
    rerun_agrees rules df.
Proof.
  intros rules df Hnd Htc. unfold rerun_agrees.
  split; [| split].
  - intros v. rewrite (rerun_get rules df v Hnd).
    unfold apply_vertical_filters. rewrite (filters_loop_get _ _ [] v Hnd).
    destruct (dict_get rules v) as [rule |]; [| cbn; tauto].
    cbn zeta.
    destruct (List.length (of_vertical v df) =? 0)%nat eqn:Hlen.
    + apply length_zero_nil in Hlen. rewrite Hlen, filter_vertical_nil.
      cbn. tauto.
    + destruct (List.length (filter_vertical rule (of_vertical v df)) =? 0)%nat
        eqn:Hkept.
      * apply length_zero_nil in Hkept. rewrite Hkept. tauto.
      * split; [discriminate |]. intros [H | H]; [discriminate |].
        injection H as H. apply length_zero_nil in H. congruence.
  - intros v leads. rewrite (rerun_get rules df v Hnd).
    unfold apply_vertical_filters. rewrite (filters_loop_get _ _ [] v Hnd).
    destruct (dict_get rules v) as [rule |] eqn:Hrule; [| discriminate].
    destruct (List.length (of_vertical v df) =? 0)%nat; [discriminate |].
    intros [= <-] Hne. cbn zeta.
    destruct (List.length (filter_vertical rule (of_vertical v df)) =? 0)%nat
        eqn:Hkept.
    + apply length_zero_nil in Hkept. contradiction.
    + assert (0 <= Config.target_count rule) as Hrule_tc.
      { apply (Htc v). apply dict_get_some_in. exact Hrule. }
      rewrite (filter_vertical_again rule _ Hrule_tc).
      eexists. split; [reflexivity |].
      split; [apply sort_values_perm |].
      apply sort_values_scores, filter_vertical_sorted.
  - intros Hfix. unfold rerun.
    rewrite (apply_vertical_filters_entries rules df Hnd).
    rewrite (apply_vertical_filters_entries rules _ Hnd).
    unfold nonempty_entries. rewrite filter_flat_map.
    apply flat_map_ext_in. intros [v rule] Hin.
    cbn [vertical_entry].
    rewrite (of_vertical_flatten rules df v Hnd).
    rewrite (dict_get_in rules v rule Hnd Hin).
    rewrite (filter_vertical_again rule _ (Htc v rule Hin)).
    rewrite (Hfix _ (filter_vertical_sorted rule _)).
    destruct (List.length (of_vertical v df) =? 0)%nat eqn:Hlen.
    + apply length_zero_nil in Hlen. rewrite Hlen, filter_vertical_nil.
      reflexivity.
    + cbn [filter snd].
      destruct (List.length (filter_vertical rule (of_vertical v df)) =? 0)%nat;
        reflexivity.
Qed.

End Rerun.

(** Leads as the pipeline scores them: a pizza restaurant in San Francisco
    with 600 reviews, and a restaurant without reviews. *)
Definition strong_lead : FeatureEngineering.ScoredLead :=
  FeatureEngineering.score_lead Config.SCORING_WEIGHTS (fun _ => 0)
    (FeatureEngineering.engineer_row true false
       {| Cleaned.place_id := Some "p1"; Cleaned.name := Some "Pizzeria";
          Cleaned.address := None; Cleaned.phone := "";
          Cleaned.rating := (9 # 2)%Q; Cleaned.review_count := 600;
          Cleaned.price_level := 1;
          Cleaned.types := Some "pizza_restaurant";
          Cleaned.website := "";
          Cleaned.source_location := Some "San Francisco, CA";
          Cleaned.fetched_at := 0;
          Cleaned.city := Some "San Francisco";
          Cleaned.state := Some "CA" |}).

Definition weak_lead : FeatureEngineering.ScoredLead :=
  FeatureEngineering.score_lead Config.SCORING_WEIGHTS (fun _ => 0)
    (FeatureEngineering.engineer_row false false
       {| Cleaned.place_id := Some "p2"; Cleaned.name := Some "Diner";
          Cleaned.address := None; Cleaned.phone := "";
          Cleaned.rating := 0%Q; Cleaned.review_count := 0;
          Cleaned.price_level := 3;
          Cleaned.types := Some "restaurant";
          Cleaned.website := "";
          Cleaned.source_location := Some "Boise, ID";
          Cleaned.fetched_at := 0;
          Cleaned.city := Some "Boise";
          Cleaned.state := Some "ID" |}).

(** The scenario of the specification: all six factors hold, the score is
    100, the priority Critical and the contact date three days ahead. *)
Example strong_lead_scenario :
  FeatureEngineering.lead_score strong_lead = 100
  /\ FeatureEngineering.priority strong_lead = Some "Critical"
  /\ FeatureEngineering.contact_by_date strong_lead = Some 3
  /\ FeatureEngineering.vertical (FeatureEngineering.featured strong_lead)
     = "restaurants".
Proof. repeat split. Qed.

Lemma shipped_rules_keys : NoDup (Py.keys Config.VERTICAL_RULES).
Proof. repeat constructor; cbn; intuition discriminate. Qed.

Lemma shipped_rules_counts :
  forall v rule,
    In (v, rule) Config.VERTICAL_RULES -> 0 <= Config.target_count rule.
Proof.
  intros v rule Hin. cbn in Hin.
  repeat (destruct Hin as [Hin | Hin]; [injection Hin as <- <-; cbn; lia |]).
  contradiction.
Qed.

Lemma vertical_filters_respect_rules_witness :
  respects_rules Config.VERTICAL_RULES [weak_lead; strong_lead]
    (ExportLeads.apply_vertical_filters (sorting := stable_sort)
       Config.VERTICAL_RULES [weak_lead; strong_lead]).
Proof.
  apply (@vertical_filters_respect_rules stable_sort
           Config.VERTICAL_RULES [weak_lead; strong_lead]).
  exact shipped_rules_keys.
Defined.

(** C7, as stated, fails: a restaurant that scores 5 is below the minimum
    score, so the result holds the vertical with an empty frame; flattened,
    it has no lead, and the second result does not hold the vertical. *)
Lemma rerun_drops_empty_vertical :
  ExportLeads.apply_vertical_filters (sorting := stable_sort)
    Config.VERTICAL_RULES [weak_lead] = [("restaurants", [])]
  /\ rerun (sorting := stable_sort) Config.VERTICAL_RULES [weak_lead] = []
  /\ rerun (sorting := stable_sort) Config.VERTICAL_RULES [weak_lead]
     <> ExportLeads.apply_vertical_filters (sorting := stable_sort)
          Config.VERTICAL_RULES [weak_lead].
Proof. split; [reflexivity |]. split; [reflexivity | discriminate]. Qed.

Lemma rerun_keeps_nonempty_verticals_witness :
  rerun_agrees (sorting := stable_sort) Config.VERTICAL_RULES
    [weak_lead; strong_lead].
Proof.
  apply (@rerun_keeps_nonempty_verticals stable_sort
           Config.VERTICAL_RULES [weak_lead; strong_lead]).
  - exact shipped_rules_keys.
  - exact shipped_rules_counts.
Defined.

(** * Further properties of the pipeline *)

From Stdlib Require OrderedTypeEx.

(** ** Loading the latest raw file *)

Section Loading.
Import Py FeatureEngineering.

Lemma ltb_irrefl s : String.ltb s s = false.
Proof.
  unfold String.ltb.
  destruct (String.compare s s) eqn:H; try reflexivity.
  exfalso. apply OrderedTypeEx.String_as_OT.cmp_lt in H.
  apply OrderedTypeEx.String_as_OT.lt_not_eq in H. apply H. reflexivity.
Qed.

Lemma ltb_trans a b c :
  String.ltb a b = true -> String.ltb b c = true -> String.ltb a c = true.
Proof.
  unfold String.ltb. intros Hab Hbc.
  destruct (String.compare a b) eqn:H1; try discriminate.
  destruct (String.compare b c) eqn:H2; try discriminate.
  apply OrderedTypeEx.String_as_OT.cmp_lt in H1, H2.
  pose proof (OrderedTypeEx.String_as_OT.lt_trans _ _ _ H1 H2) as H3.
  apply OrderedTypeEx.String_as_OT.cmp_lt in H3.
  unfold OrderedTypeEx.String_as_OT.cmp in H3. rewrite H3. reflexivity.
Qed.

(** [max_file] returns one of the files, and none has a greater name. *)
Lemma max_file_greatest latest files :
  In (max_file latest files) (latest :: files)
  /\ forall f, In f (latest :: files) ->
       String.ltb (fst (max_file latest files)) (fst f) = false.
Proof.
  revert latest. induction files as [| g files IH]; intros latest.
  - cbn. split; [left; reflexivity |].
    intros f [<- | []]. apply ltb_irrefl.
  - cbn [max_file].
    destruct (String.ltb (fst latest) (fst g)) eqn:Hlt.
    + destruct (IH g) as [Hin Hmax]. split.
      * right. exact Hin.
      * intros f [<- | Hf]; [| apply Hmax; exact Hf].
        destruct (String.ltb (fst (max_file g files)) (fst latest)) eqn:Hlt';
          [| reflexivity].
        pose proof (ltb_trans _ _ _ Hlt' Hlt) as Hbad.
        rewrite (Hmax g (or_introl eq_refl)) in Hbad. discriminate.
    + destruct (IH latest) as [Hin Hmax]. split.
      * destruct Hin as [<- | Hin]; [left; reflexivity | right; right; exact Hin].
      * intros f [<- | [<- | Hf]].
        -- apply Hmax. left. reflexivity.
        -- destruct (String.ltb (fst (max_file latest files)) (fst g)) eqn:Hlt';
             [| reflexivity].
           destruct (String.ltb (fst latest) (fst (max_file latest files)))
             eqn:Hlm.
           ++ pose proof (ltb_trans _ _ _ Hlm Hlt') as Hbad. congruence.
           ++ exfalso.
              pose proof (Hmax latest (or_introl eq_refl)) as Hml.
              assert (Heq : fst (max_file latest files) = fst latest).
              { apply String.leb_antisym; unfold String.leb.
                - rewrite String.compare_antisym.
                  unfold String.ltb in Hlm.
                  destruct (String.compare (fst latest)
                              (fst (max_file latest files))); cbn;
                    try reflexivity; discriminate.
                - rewrite String.compare_antisym.
                  unfold String.ltb in Hml.
                  destruct (String.compare (fst (max_file latest files))
                              (fst latest)); cbn; try reflexivity; discriminate. }
              rewrite Heq in Hlt'. congruence.
        -- apply Hmax. right. exact Hf.
Qed.

(** X1: the loader raises FileNotFoundError exactly when no file of the
    directory matches the pattern; otherwise it raises nothing and returns
    the rows of a matching file such that no matching file has a greater
    name, whatever other files the directory holds. *)
Theorem load_latest_picks_greatest_match :
  forall dir,
    (glob dir = [] /\ load_latest_raw_data dir = ([], Raise FileNotFoundError))
    \/ (exists file df,
          In (file, df) dir
          /\ matches_pattern file = true
          /\ (forall file' df',
                In (file', df') dir -> matches_pattern file' = true ->
                String.ltb file file' = false)
          /\ load_latest_raw_data dir
             = ([Loading file; Loaded (List.length df)], Ok df)).
Proof.
  intros dir. unfold load_latest_raw_data.
  destruct (glob dir) as [| f files] eqn:Hglob; [left; split; reflexivity |].
  right. destruct (max_file_greatest f files) as [Hin Hmax].
  rewrite <- Hglob in Hin, Hmax.
  destruct (max_file f files) as [file df]. exists file, df.
  unfold glob in Hin, Hmax.
  apply filter_In in Hin. destruct Hin as [Hin Hmatch].
  split; [exact Hin |]. split; [exact Hmatch |].
  split; [| reflexivity].
  intros file' df' Hin' Hmatch'.
  apply (Hmax (file', df')). apply filter_In. split; assumption.
Qed.

Lemma endswith_append suffix s : endswith suffix (s ++ suffix)%string = true.
Proof.
  induction s as [| c s IH]; cbn [String.append].
  - destruct suffix; cbn [endswith]; rewrite String.eqb_refl; reflexivity.
  - cbn [endswith].
    destruct (String.eqb (String c (s ++ suffix)) suffix); [reflexivity |].
    exact IH.
Qed.

Lemma prefix_append p s : prefix p (p ++ s)%string = true.
Proof.
  induction p as [| c p IH]; [destruct s; reflexivity |].
  change (prefix (String c p) (String c p ++ s)%string)
    with (if ascii_dec c c then prefix p (p ++ s)%string else false).
  destruct (ascii_dec c c); [exact IH | contradiction].
Qed.


End Loading.

(** ** Cleaning: the two location columns *)

Section Location.
Import Py FeatureEngineering.

Lemma comma_in_cons c s :
  str_in "," (String c s) = Ascii.eqb c "," || str_in "," s.
Proof.
  cbn [str_in]. rewrite comma_prefix.
  destruct (Ascii.eqb c ","); reflexivity.
Qed.

Lemma split_comma_parts_without_comma s :
  Forall (fun part => str_in "," part = false) (split_comma s).
Proof.
  induction s as [| c s IH]; cbn [split_comma].
  - repeat constructor.
  - destruct (Ascii.eqb c ",") eqn:Hc.
    + constructor; [reflexivity | exact IH].
    + destruct (split_comma s) as [| part parts].
      * constructor; [| constructor].
        rewrite comma_in_cons, Hc. reflexivity.
      * inversion IH as [| ? ? Hpart Hparts]; subst.
        constructor; [| exact Hparts].
        rewrite comma_in_cons, Hc, Hpart. reflexivity.
Qed.

Lemma lstrip_without_comma s :
  str_in "," s = false -> str_in "," (lstrip s) = false.
Proof.
  induction s as [| c s IH]; [trivial |].
  intros H. cbn [lstrip]. destruct (is_space c); [| exact H].
  rewrite comma_in_cons in H. apply orb_false_iff in H. apply IH, H.
Qed.

Lemma rstrip_without_comma s :
  str_in "," s = false -> str_in "," (rstrip s) = false.
Proof.
  induction s as [| c s IH]; [trivial |].
  intros H. rewrite comma_in_cons in H. apply orb_false_iff in H.
  destruct H as [Hc Hs]. specialize (IH Hs). cbn [rstrip].
  destruct (rstrip s) as [| c' r].
  - destruct (is_space c); [reflexivity |].
    rewrite comma_in_cons, Hc. reflexivity.
  - rewrite comma_in_cons, Hc. exact IH.
Qed.

Lemma rstrip_rstrip s : rstrip (rstrip s) = rstrip s.
Proof.
  induction s as [| c s IH]; [reflexivity |].
  cbn [rstrip]. destruct (rstrip s) as [| c' r] eqn:Hr.
  - destruct (is_space c) eqn:Hc; [reflexivity |].
    cbn [rstrip]. rewrite Hc. reflexivity.
  - cbn [rstrip] in *. rewrite IH. reflexivity.
Qed.

Lemma lstrip_rstrip_lstrip s : lstrip (rstrip (lstrip s)) = rstrip (lstrip s).
Proof.
  induction s as [| c s IH]; [reflexivity |].
  cbn [lstrip]. destruct (is_space c) eqn:Hc; [exact IH |].
  cbn [rstrip]. destruct (rstrip s) as [| c' r];
    rewrite ?Hc; cbn [lstrip]; rewrite Hc; reflexivity.
Qed.

(** Stripping a stripped text changes nothing. *)
Lemma strip_strip s : strip (strip s) = strip s.
Proof.
  unfold strip. rewrite lstrip_rstrip_lstrip. apply rstrip_rstrip.
Qed.

Lemma strip_without_comma s :
  str_in "," s = false -> str_in "," (strip s) = false.
Proof.
  intros H. unfold strip. apply rstrip_without_comma, lstrip_without_comma, H.
Qed.

Lemma column_without_comma i cell part :
  column i (option_map split_comma cell) = Some part ->
  str_in "," part = false.
Proof.
  destruct cell as [s |]; [| discriminate]. cbn. intros H.
  apply nth_error_In in H.
  pose proof (split_comma_parts_without_comma s) as Hall.
  rewrite Forall_forall in Hall. apply Hall, H.
Qed.

(** On a frame that has rows, one of them with a source location,
    [clean_data] returns the cleaned rows. *)
Lemma clean_data_rows df :
  df <> [] ->
  Exists (fun r => Raw.source_location r <> None) df ->
  clean_data df = Ok (map (clean_row (n_columns (location_split df))) df).
Proof.
  intros Hne Hsome. unfold clean_data.
  destruct df as [| r0 df0] eqn:Hdf; [contradiction |]. rewrite <- Hdf in *.
  destruct (forallb _ df) eqn:Hall; [| reflexivity].
  exfalso. rewrite forallb_forall in Hall.
  apply Exists_exists in Hsome. destruct Hsome as [r [Hin Hr]].
  specialize (Hall r Hin).
  destruct (Raw.source_location r); [discriminate | contradiction].
Qed.

(** A frame of two raw rows, the second without region. *)
Definition sample_frame : list Raw.t :=
  [sample_raw None (Some "Chicago, IL"); sample_raw (Some "p2") (Some "Seattle")].

Lemma sample_frame_has_location :
  Exists (fun r => Raw.source_location r <> None) sample_frame.
Proof. constructor. cbn. discriminate. Qed.

(** A city or region that [clean_data] writes. *)
Definition clean_text (cell : option string) : Prop :=
  forall text, cell = Some text -> str_in "," text = false /\ strip text = text.

(** X3: in every row that [clean_data] returns, the city and the region hold
    no comma and no white space at either end. *)
Theorem cleaned_location_is_stripped :
  forall df,
    df <> [] ->
    Exists (fun r => Raw.source_location r <> None) df ->
    exists out,
      clean_data df = Ok out
      /\ Forall (fun c => clean_text (Cleaned.city c)
                          /\ clean_text (Cleaned.state c)) out.
Proof.
  intros df Hne Hsome. eexists. split; [apply clean_data_rows; assumption |].
  apply Forall_forall. intros c Hin. apply in_map_iff in Hin.
  destruct Hin as [r [<- _]]. unfold clean_row, clean_text.
  cbn [Cleaned.city Cleaned.state]. split.
  - intros text Htext.
    destruct (column 0 _) as [part |] eqn:Hcol; [| discriminate].
    injection Htext as <-. apply column_without_comma in Hcol.
    split; [apply strip_without_comma, Hcol | apply strip_strip].
  - intros text Htext.
    destruct (1 <? n_columns (location_split df))%nat.
    + destruct (column 1 _) as [part |] eqn:Hcol; [| discriminate].
      injection Htext as <-. apply column_without_comma in Hcol.
      split; [apply strip_without_comma, Hcol | apply strip_strip].
    + injection Htext as <-. split; reflexivity.
Qed.

Lemma cleaned_location_is_stripped_witness :
  exists out,
    clean_data sample_frame = Ok out
    /\ Forall (fun c => clean_text (Cleaned.city c)
                        /\ clean_text (Cleaned.state c)) out.
Proof.
  apply (cleaned_location_is_stripped sample_frame).
  - discriminate.
  - exact sample_frame_has_location.
Defined.

(** Whether the source location of a row has a comma. *)
Definition has_comma (r : Raw.t) : bool :=
  match Raw.source_location r with
  | Some s => str_in "," s
  | None => false
  end.

Lemma n_columns_with_comma df :
  (1 <? n_columns (location_split df))%nat = existsb has_comma df.
Proof.
  destruct (existsb has_comma df) eqn:Hex.
  - apply existsb_exists in Hex. destruct Hex as [r [Hin Hr]].
    unfold has_comma in Hr.
    destruct (Raw.source_location r) as [s |] eqn:Hs; [| discriminate].
    pose proof (n_columns_bound df r s Hin Hs).
    pose proof (split_comma_two_parts s Hr).
    apply Nat.ltb_lt. lia.
  - apply Nat.ltb_ge. apply n_columns_without_comma.
    intros r s Hin Hs.
    destruct (str_in "," s) eqn:Hcomma; [| reflexivity].
    assert (existsb has_comma df = true); [| congruence].
    apply existsb_exists. exists r. split; [exact Hin |].
    unfold has_comma. rewrite Hs. exact Hcomma.
Qed.

(** How the region of a cleaned row follows from the frame. *)
Definition region_rule (df : list Raw.t) (r : Raw.t) (c : Cleaned.t) : Prop :=
  if has_comma r
  then exists region, Cleaned.state c = Some region
  else Cleaned.state c = if existsb has_comma df then None else Some "".

(** X4: the region of a row depends on the other rows of the frame. A row
    whose source location has a comma has a region; a row whose source
    location has none, or is missing, gets the empty text when no row of the
    frame has a comma, and NaN as soon as one row has. *)
Theorem region_depends_on_the_frame :
  forall df,
    df <> [] ->
    Exists (fun r => Raw.source_location r <> None) df ->
    exists out,
      clean_data df = Ok out /\ Forall2 (region_rule df) df out.
Proof.
  intros df Hne Hsome. eexists. split; [apply clean_data_rows; assumption |].
  assert (H : forall l, incl l df ->
    Forall2 (region_rule df)
      l (map (clean_row (n_columns (location_split df))) l)).
  { induction l as [| r l IH]; intros Hincl; cbn [map]; constructor.
    - assert (Hin : In r df) by (apply Hincl; left; reflexivity).
      unfold region_rule. destruct (has_comma r) eqn:Hr.
      + unfold has_comma in Hr.
        destruct (Raw.source_location r) as [s |] eqn:Hs; [| discriminate].
        destruct (clean_row_cleaned_from df r Hin)
          as (_ & _ & _ & _ & _ & _ & _ & Hregion & _).
        apply (Hregion s Hs Hr).
      + unfold clean_row. cbn [Cleaned.state].
        rewrite n_columns_with_comma.
        destruct (existsb has_comma df); [| reflexivity].
        unfold has_comma in Hr.
        destruct (Raw.source_location r) as [s |]; [| reflexivity].
        cbn [option_map column]. rewrite (split_comma_one_part s Hr).
        reflexivity.
    - apply IH. intros x Hx. apply Hincl. right. exact Hx. }
  apply H. apply incl_refl.
Qed.

Lemma region_depends_on_the_frame_witness :
  exists out,
    clean_data sample_frame = Ok out
    /\ Forall2 (region_rule sample_frame) sample_frame out.
Proof.
  apply (region_depends_on_the_frame sample_frame).
  - discriminate.
  - exact sample_frame_has_location.
Defined.

(** On the sample frame the row of Seattle has no region at all, and has
    the empty region when it is cleaned alone. *)
Example region_of_seattle :
  (exists c1 c2, clean_data sample_frame = Ok [c1; c2]
                 /\ Cleaned.state c1 = Some "IL" /\ Cleaned.state c2 = None)
  /\ (exists c, clean_data [sample_raw (Some "p2") (Some "Seattle")] = Ok [c]
                /\ Cleaned.state c = Some "").
Proof. split; repeat eexists. Qed.

End Location.

(** ** Features of cleaned rows *)

Section Features.
Import Py FeatureEngineering.

Lemma breakdown_lookup weights now row name :
  dict_get (score_breakdown (score_lead weights now row)) name =
  dict_get (entries (factors weights row)) name.
Proof. rewrite score_breakdown_eq, score_row_factors. reflexivity. Qed.

(** X5: what a missing cell of the raw row becomes in the score. A missing
    price level counts as affordable and earns the Affordable Price points;
    a missing rating earns no High Rating points; a missing review count has
    no review volume bucket and earns the flat 5; missing category tags make
    the vertical other and earn no High Demand Category points. *)
Theorem missing_cells_in_the_score :
  forall weights now columns ubereats grubhub r,
    let row := engineer_row ubereats grubhub (clean_row columns r) in
    let breakdown := score_breakdown (score_lead weights now row) in
    (Raw.price_level r = None ->
     is_affordable row = true
     /\ dict_get breakdown "Affordable Price"
        = Some (Config.affordable_price weights))
    /\ (Raw.rating r = None ->
        high_rating row = false /\ dict_get breakdown "High Rating" = None)
    /\ (Raw.review_count r = None ->
        review_volume row = None
        /\ dict_get breakdown "Review Volume" = Some 5)
    /\ (Raw.types r = None ->
        vertical row = "other"
        /\ high_demand_category row = false
        /\ dict_get breakdown "High Demand Category" = None).
Proof.
  intros weights now columns ubereats grubhub r row breakdown.
  subst breakdown. repeat split.
  - subst row. cbn. rewrite H. reflexivity.
  - rewrite breakdown_lookup. unfold factors.
    assert (Ha : is_affordable row = true)
      by (subst row; cbn; rewrite H; reflexivity).
    rewrite Ha.
    destruct (on_ubereats row || on_grubhub row), (high_demand_category row),
      (urban_location row), (high_rating row); reflexivity.
  - subst row. cbn. rewrite H. reflexivity.
  - rewrite breakdown_lookup. unfold factors.
    assert (Ha : high_rating row = false)
      by (subst row; cbn; rewrite H; reflexivity).
    rewrite Ha.
    destruct (on_ubereats row || on_grubhub row), (high_demand_category row),
      (urban_location row), (is_affordable row); reflexivity.
  - subst row. cbn. rewrite H. reflexivity.
  - rewrite breakdown_lookup. unfold factors.
    assert (Ha : Cleaned.review_count (cleaned row) = 0)
      by (subst row; cbn; rewrite H; reflexivity).
    rewrite Ha.
    destruct (on_ubereats row || on_grubhub row), (high_demand_category row),
      (urban_location row), (high_rating row), (is_affordable row); reflexivity.
  - subst row. cbn [vertical engineer_row clean_row Cleaned.types].
    rewrite H. reflexivity.
  - subst row. cbn [high_demand_category engineer_row clean_row Cleaned.types].
    rewrite H. reflexivity.
  - rewrite breakdown_lookup. unfold factors.
    assert (Ha : high_demand_category row = false).
    { subst row.
      cbn [high_demand_category engineer_row clean_row Cleaned.types].
      rewrite H. reflexivity. }
    rewrite Ha.
    destruct (on_ubereats row || on_grubhub row), (urban_location row),
      (high_rating row), (is_affordable row); reflexivity.
Qed.

(** The cities of [config.py] for which the collector searches. *)
Definition CITIES : list string :=
  ["San Francisco, CA"; "New York, NY"; "Chicago, IL"; "Los Angeles, CA";
   "Seattle, WA"].

Lemma mapi_from_forall {A B} (P : B -> Prop) (f : nat -> A -> B) l i :
  Forall (fun x => forall j, P (f j x)) l -> Forall P (mapi_from i f l).
Proof.
  intros H. revert i. induction H as [| x l Hx _ IH]; intros i; cbn;
    constructor; [apply Hx | apply IH].
Qed.

Lemma configured_city_row df r :
  In r df ->
  (exists location, In location CITIES /\ Raw.source_location r = Some location) ->
  let c := clean_row (n_columns (location_split df)) r in
  (exists city, Cleaned.city c = Some city /\ isin city urban_cities = true)
  /\ (exists region, Cleaned.state c = Some region
                     /\ In region ["CA"; "NY"; "IL"; "WA"]).
Proof.
  intros Hin [location [Hloc Hs]] c. subst c.
  pose proof (n_columns_bound df r location Hin Hs) as Hn.
  unfold clean_row. cbn [Cleaned.city Cleaned.state]. rewrite Hs.
  cbn in Hloc.
  destruct Hloc as [<- | [<- | [<- | [<- | [<- | []]]]]];
    (assert (Hcols : (1 <? n_columns (location_split df))%nat = true)
       by (apply Nat.ltb_lt; cbn in Hn; lia));
    rewrite Hcols; cbn;
    (split; eexists; split; try reflexivity; cbn; tauto).
Qed.

(** X6: when every row was collected for one of the configured cities, its
    cleaned city is one of the urban cities and its region one of the four
    state codes, so every row is flagged urban: the Urban Location factor is
    the same for all leads of the pipeline. *)
Theorem configured_cities_are_urban :
  forall df,
    df <> [] ->
    Forall (fun r => exists location,
              In location CITIES /\ Raw.source_location r = Some location) df ->
    exists out,
      clean_data df = Ok out
      /\ Forall (fun c =>
                   (exists city, Cleaned.city c = Some city
                                 /\ isin city urban_cities = true)
                   /\ (exists region, Cleaned.state c = Some region
                                      /\ In region ["CA"; "NY"; "IL"; "WA"]))
                out
      /\ forall ubereats grubhub,
           Forall (fun row => urban_location row = true)
                  (engineer_features ubereats grubhub out).
Proof.
  intros df Hne Hall.
  assert (Hsome : Exists (fun r => Raw.source_location r <> None) df).
  { destruct df as [| r df]; [contradiction |].
    inversion Hall as [| ? ? [location [_ Hs]] _]; subst.
    constructor. rewrite Hs. discriminate. }
  eexists. split; [apply clean_data_rows; assumption |].
  assert (Hrows : Forall (fun c =>
                   (exists city, Cleaned.city c = Some city
                                 /\ isin city urban_cities = true)
                   /\ (exists region, Cleaned.state c = Some region
                                      /\ In region ["CA"; "NY"; "IL"; "WA"]))
                (map (clean_row (n_columns (location_split df))) df)).
  { apply Forall_forall. intros c Hin. apply in_map_iff in Hin.
    destruct Hin as [r [<- Hin]].
    apply configured_city_row; [exact Hin |].
    rewrite Forall_forall in Hall. apply Hall, Hin. }
  split; [exact Hrows |].
  intros ubereats grubhub. unfold engineer_features, mapi.
  apply mapi_from_forall.
  eapply Forall_impl; [| exact Hrows].
  intros c [[city [Hcity Hurban]] _] j.
  cbn [urban_location engineer_row]. rewrite Hcity. exact Hurban.
Qed.

Lemma configured_cities_are_urban_witness :
  exists out,
    clean_data [sample_raw (Some "p1") (Some "Chicago, IL");
                sample_raw (Some "p2") (Some "Seattle, WA")] = Ok out
    /\ Forall (fun c =>
                 (exists city, Cleaned.city c = Some city
                               /\ isin city urban_cities = true)
                 /\ (exists region, Cleaned.state c = Some region
                                    /\ In region ["CA"; "NY"; "IL"; "WA"]))
              out
    /\ forall ubereats grubhub,
         Forall (fun row => urban_location row = true)
                (engineer_features ubereats grubhub out).
Proof.
  apply (configured_cities_are_urban
           [sample_raw (Some "p1") (Some "Chicago, IL");
            sample_raw (Some "p2") (Some "Seattle, WA")]).
  - discriminate.
  - repeat constructor; eexists; (split; [| reflexivity]); cbn; tauto.
Defined.

Lemma mapi_from_nth {A B} (f : nat -> A -> B) l i k :
  nth_error (mapi_from k f l) i = option_map (f (k + i)%nat) (nth_error l i).
Proof.
  revert i k. induction l as [| x l IH]; intros [| i] k; cbn;
    try reflexivity.
  - rewrite Nat.add_0_r. reflexivity.
  - rewrite IH. rewrite Nat.add_succ_r. reflexivity.
Qed.

Lemma mapi_from_length {A B} (f : nat -> A -> B) l k :
  List.length (mapi_from k f l) = List.length l.
Proof.
  revert k. induction l as [| x l IH]; intros k; cbn; [| rewrite IH];
    reflexivity.
Qed.

(** [engineer_features] keeps the number and the order of the rows; the
    row at position [i] keeps its cleaned columns and gets the draws at
    position [i] as its competitor flags. *)
Theorem features_follow_the_rows :
  forall ubereats grubhub df,
    List.length (engineer_features ubereats grubhub df) = List.length df
    /\ forall i,
         nth_error (engineer_features ubereats grubhub df) i
         = option_map (engineer_row (ubereats i) (grubhub i)) (nth_error df i).
Proof.
  intros ubereats grubhub df. unfold engineer_features, mapi.
  split; [apply mapi_from_length |].
  intros i. rewrite mapi_from_nth. reflexivity.
Qed.

End Features.

(** ** Verticals that the overlap of the terms decides *)

Section Overlap.
Import Py FeatureEngineering.

Lemma prefix_app_iff p s :
  prefix p s = true <-> exists rest, s = (p ++ rest)%string.
Proof.
  revert s. induction p as [| c p IH]; intros s.
  - split; [intros _; exists s; reflexivity | destruct s; reflexivity].
  - destruct s as [| d s].
    + split; [discriminate | intros [rest H]; discriminate].
    + change (prefix (String c p) (String d s))
        with (if ascii_dec c d then prefix p s else false).
      destruct (ascii_dec c d) as [<- | Hne].
      * rewrite IH. split; intros [rest H]; exists rest.
        -- cbn. rewrite H. reflexivity.
        -- cbn in H. injection H as H. exact H.
      * split; [discriminate |].
        intros [rest H]. cbn in H. congruence.
Qed.

Lemma append_assoc (a b c : string) :
  ((a ++ b) ++ c)%string = (a ++ (b ++ c))%string.
Proof. induction a as [| x a IH]; cbn; [| rewrite IH]; reflexivity. Qed.

(** [needle in hay] holds exactly when [hay] has [needle] between two
    texts. *)
Lemma str_in_iff needle hay :
  str_in needle hay = true <->
  exists before after, hay = (before ++ needle ++ after)%string.
Proof.
  split.
  - induction hay as [| c hay IH]; cbn [str_in].
    + destruct (prefix needle "") eqn:Hp; [| discriminate].
      intros _. apply prefix_app_iff in Hp. destruct Hp as [rest Hp].
      exists "", rest. exact Hp.
    + destruct (prefix needle (String c hay)) eqn:Hp.
      * intros _. apply prefix_app_iff in Hp. destruct Hp as [rest Hp].
        exists "", rest. exact Hp.
      * intros H. destruct (IH H) as [before [after Heq]].
        exists (String c before), after. cbn. rewrite Heq. reflexivity.
  - intros [before [after ->]].
    induction before as [| c before IH].
    + cbn [String.append].
      assert (Hp : prefix needle (needle ++ after)%string = true)
        by (apply prefix_app_iff; eexists; reflexivity).
      destruct (needle ++ after)%string; cbn [str_in]; rewrite Hp; reflexivity.
    + cbn [String.append str_in]. rewrite IH.
      destruct (prefix needle _); reflexivity.
Qed.

(** A text that holds a term holds the end of the term. *)
Lemma str_in_suffix start finish hay :
  str_in (start ++ finish)%string hay = true -> str_in finish hay = true.
Proof.
  rewrite !str_in_iff. intros [before [after ->]].
  exists (before ++ start)%string, after.
  rewrite !append_assoc. reflexivity.
Qed.

Lemma retail_terms_without_store s :
  str_in "store" s = false -> any_in retail_terms s = str_in "shopping" s.
Proof.
  intros Hstore. unfold any_in, retail_terms. cbn [existsb]. rewrite Hstore.
  assert (H1 : str_in "clothing_store" s = false).
  { destruct (str_in "clothing_store" s) eqn:H; [| reflexivity].
    rewrite (str_in_suffix "clothing_" "store" s H) in Hstore. discriminate. }
  assert (H2 : str_in "convenience_store" s = false).
  { destruct (str_in "convenience_store" s) eqn:H; [| reflexivity].
    rewrite (str_in_suffix "convenience_" "store" s H) in Hstore.
    discriminate. }
  rewrite H1, H2. rewrite !orb_false_r. reflexivity.
Qed.

(** X7: a record is classified retail exactly when its lower-cased tags hold
    the term shopping and no term of the restaurants and grocery rules; the
    other three retail terms never decide, so tags with clothing_store or
    convenience_store are restaurants or grocery, never retail. *)
Theorem retail_needs_shopping :
  forall types,
    let s := lower (str types) in
    (classify_vertical types = "retail" <->
     any_in restaurant_terms s = false /\ any_in grocery_terms s = false
     /\ str_in "shopping" s = true)
    /\ (str_in "clothing_store" s = true \/ str_in "convenience_store" s = true ->
        classify_vertical types = "restaurants"
        \/ classify_vertical types = "grocery").
Proof.
  intros types s.
  assert (Hg : any_in grocery_terms s = false -> str_in "store" s = false).
  { unfold any_in, grocery_terms. cbn [existsb]. intros H.
    destruct (str_in "store" s); [| reflexivity].
    rewrite !orb_true_r in H. discriminate. }
  unfold classify_vertical. fold s.
  fold restaurant_terms grocery_terms retail_terms.
  split.
  - destruct (any_in restaurant_terms s) eqn:Hr.
    { split; [discriminate | intros [H _]; discriminate]. }
    destruct (any_in grocery_terms s) eqn:Hgr.
    { split; [discriminate | intros (_ & H & _); discriminate]. }
    rewrite (retail_terms_without_store s (Hg eq_refl)).
    destruct (str_in "shopping" s).
    + split; [intros _; repeat split | reflexivity].
    + split; [discriminate | intros (_ & _ & H); discriminate].
  - intros Hstore.
    assert (Hs : str_in "store" s = true).
    { destruct Hstore as [H | H].
      - apply (str_in_suffix "clothing_" "store" s H).
      - apply (str_in_suffix "convenience_" "store" s H). }
    destruct (any_in restaurant_terms s); [left; reflexivity |].
    destruct (any_in grocery_terms s) eqn:Hgr; [right; reflexivity |].
    rewrite (Hg eq_refl) in Hs. discriminate.
Qed.

End Overlap.

(** ** Order and reach of the scores *)

Section ScoreOrder.
Import Py FeatureEngineering.

(** Two rows with the same five flags. *)
Definition same_flags (row row' : Featured) : Prop :=
  (on_ubereats row || on_grubhub row) = (on_ubereats row' || on_grubhub row')
  /\ high_demand_category row = high_demand_category row'
  /\ urban_location row = urban_location row'
  /\ high_rating row = high_rating row'
  /\ is_affordable row = is_affordable row'.

Lemma review_points_monotone weights n n' :
  5 <= Config.review_count_low weights ->
  Config.review_count_low weights <= Config.review_count_medium weights ->
  Config.review_count_medium weights <= Config.review_count_high weights ->
  n <= n' ->
  review_points weights n <= review_points weights n'.
Proof.
  intros Hlow Hmed Hhigh Hn. unfold review_points.
  destruct (Z.ltb_spec 500 n), (Z.ltb_spec 200 n), (Z.ltb_spec 50 n),
    (Z.ltb_spec 500 n'), (Z.ltb_spec 200 n'), (Z.ltb_spec 50 n'); lia.
Qed.

(** X8: when the three review weights are in order above the flat 5, a row
    with more reviews and the same flags never scores less. *)
Theorem more_reviews_never_score_less :
  forall weights now row row',
    5 <= Config.review_count_low weights ->
    Config.review_count_low weights <= Config.review_count_medium weights ->
    Config.review_count_medium weights <= Config.review_count_high weights ->
    same_flags row row' ->
    Cleaned.review_count (cleaned row) <= Cleaned.review_count (cleaned row') ->
    lead_score (score_lead weights now row)
    <= lead_score (score_lead weights now row').
Proof.
  intros weights now row row' Hlow Hmed Hhigh Hflags Hn.
  destruct Hflags as (Hc & Hd & Hu & Hr & Ha).
  rewrite !lead_score_eq, !score_row_factors. cbn [fst]. unfold factors.
  rewrite Hc, Hd, Hu, Hr, Ha.
  pose proof (review_points_monotone weights _ _ Hlow Hmed Hhigh Hn) as Hp.
  set (p := review_points weights (Cleaned.review_count (cleaned row))) in *.
  set (p' := review_points weights (Cleaned.review_count (cleaned row'))) in *.
  destruct (on_ubereats row' || on_grubhub row'), (high_demand_category row'),
    (urban_location row'), (high_rating row'), (is_affordable row');
    cbn -[Z.add]; lia.
Qed.

Lemma more_reviews_never_score_less_witness :
  lead_score (score_lead Config.SCORING_WEIGHTS (fun _ => 0)
                (sample_row 10 true 0))
  <= lead_score (score_lead Config.SCORING_WEIGHTS (fun _ => 0)
                   (sample_row 600 true 0)).
Proof.
  apply (more_reviews_never_score_less Config.SCORING_WEIGHTS (fun _ => 0)
           (sample_row 10 true 0) (sample_row 600 true 0)).
  - cbn. lia.
  - cbn. lia.
  - cbn. lia.
  - repeat split.
  - cbn. lia.
Defined.

(** X9: with the shipped weights every lead score is a multiple of 5. *)
Theorem shipped_scores_are_multiples_of_5 :
  forall now df,
    Forall (fun lead => exists k, lead_score lead = 5 * k)
           (calculate_lead_score Config.SCORING_WEIGHTS now df).
Proof.
  intros now df. unfold calculate_lead_score.
  apply Forall_forall. intros lead Hin.
  apply in_map_iff in Hin. destruct Hin as [row [<- _]].
  rewrite lead_score_eq, score_row_factors. cbn [fst].
  unfold factors, review_points.
  destruct (on_ubereats row || on_grubhub row), (high_demand_category row),
    (urban_location row), (high_rating row), (is_affordable row),
    (500 <? Cleaned.review_count (cleaned row)),
    (200 <? Cleaned.review_count (cleaned row)),
    (50 <? Cleaned.review_count (cleaned row));
    cbn -[Z.mul];
    match goal with |- exists k, ?n = 5 * k => exists (n / 5); reflexivity end.
Qed.

(** X10: with the shipped weights a lead of priority Critical is on a
    competitor platform, in a high demand category and in an urban city, and
    has more than 50 reviews. *)
Theorem critical_leads_have_the_main_factors :
  forall now row,
    priority (score_lead Config.SCORING_WEIGHTS now row) = Some "Critical" ->
    (on_ubereats row || on_grubhub row) = true
    /\ high_demand_category row = true
    /\ urban_location row = true
    /\ 50 < Cleaned.review_count (cleaned row).
Proof.
  intros now row. rewrite priority_eq, cut_priority.
  rewrite lead_score_eq, score_row_factors. cbn [fst].
  unfold factors, review_points.
  destruct (on_ubereats row || on_grubhub row), (high_demand_category row),
    (urban_location row), (high_rating row), (is_affordable row),
    (Z.ltb_spec 500 (Cleaned.review_count (cleaned row))),
    (Z.ltb_spec 200 (Cleaned.review_count (cleaned row))),
    (Z.ltb_spec 50 (Cleaned.review_count (cleaned row)));
    cbn; intros Hcritical; try discriminate; repeat split; lia.
Qed.

Lemma critical_leads_have_the_main_factors_witness :
  (true || true) = true /\ true = true /\ true = true /\ 50 < 600.
Proof.
  apply (critical_leads_have_the_main_factors (fun _ => 0)
           (sample_row 600 true 0)).
  reflexivity.
Defined.

(** X11: of two leads scored on the same day with scores between 1 and
    100, the one with the higher score has a contact date that is not later. *)
Theorem higher_score_is_contacted_no_later :
  forall weights today row row',
    let lead := score_lead weights (fun _ => today) row in
    let lead' := score_lead weights (fun _ => today) row' in
    0 < lead_score lead ->
    lead_score lead <= lead_score lead' ->
    lead_score lead' <= 100 ->
    exists date date',
      contact_by_date lead = Some date
      /\ contact_by_date lead' = Some date'
      /\ date' <= date.
Proof.
  intros weights today row row' lead lead'. subst lead lead'.
  rewrite !contact_by_date_eq, !priority_eq, !cut_priority.
  generalize (lead_score (score_lead weights (fun _ => today) row)).
  generalize (lead_score (score_lead weights (fun _ => today) row')).
  intros s' s Hpos Hle Hmax.
  destruct (Z.leb_spec s 0), (Z.leb_spec s 50), (Z.leb_spec s 70),
    (Z.leb_spec s 85), (Z.leb_spec s 100),
    (Z.leb_spec s' 0), (Z.leb_spec s' 50), (Z.leb_spec s' 70),
    (Z.leb_spec s' 85), (Z.leb_spec s' 100); try lia;
    cbn -[Z.add]; eexists; eexists; (split; [reflexivity |]);
    (split; [reflexivity | unfold get_contact_date; cbn -[Z.add]; lia]).
Qed.

Lemma higher_score_is_contacted_no_later_witness :
  exists date date',
    contact_by_date (score_lead Config.SCORING_WEIGHTS (fun _ => 100)
                       (sample_row 10 true 0)) = Some date
    /\ contact_by_date (score_lead Config.SCORING_WEIGHTS (fun _ => 100)
                          (sample_row 600 true 0)) = Some date'
    /\ date' <= date.
Proof.
  apply (higher_score_is_contacted_no_later Config.SCORING_WEIGHTS 100
           (sample_row 10 true 0) (sample_row 600 true 0)).
  - cbn. lia.
  - cbn. lia.
  - cbn. lia.
Defined.

End ScoreOrder.

(** ** The run of the stages *)

Section Stages.
Import Py FeatureEngineering.

Variable validate_scoring_model : list ScoredLead -> M unit.
Variable save_processed_data : list ScoredLead -> M string.
Variable ubereats grubhub : nat -> bool.
Variable now : nat -> Z.

(** The leads that the three embedded stages make of a raw frame. *)
Definition leads_of (df : list Raw.t) : list ScoredLead :=
  calculate_lead_score Config.SCORING_WEIGHTS now
    (engineer_features ubereats grubhub
       (map (clean_row (n_columns (location_split df))) df)).

(** What the stages log for a frame of [n] rows, up to the validation. *)
Definition stage_log (n : nat) : list event :=
  [CleaningData; DataCleaned n; EngineeringFeatures; FeaturesEngineered n;
   CalculatingScores; Scored n; Validation].

(** The outcome of a run whose loader has logged [loaded] and returned
    [df]: the validation and the saving decide it. *)
Definition run_outcome (loaded : list event) (df : list Raw.t) : M string :=
  let before := loaded ++ stage_log (List.length df) in
  match validate_scoring_model (leads_of df) with
  | (validated, Raise e) => (before ++ validated ++ [Failed e], Raise e)
  | (validated, Ok _) =>
      match save_processed_data (leads_of df) with
      | (saved, Raise e) =>
          (before ++ validated ++ saved ++ [Failed e], Raise e)
      | (saved, Ok path) =>
          (before ++ validated ++ saved ++ [Completed path], Ok path)
      end
  end.

Lemma leads_of_length df : List.length (leads_of df) = List.length df.
Proof.
  unfold leads_of, calculate_lead_score, engineer_features, mapi.
  rewrite length_map, mapi_from_length, length_map. reflexivity.
Qed.


End Stages.


(** On the sample frame a failing validation ends the run before the
    saving. *)
Example failing_validation_saves_nothing :
  FeatureEngineering.main
    (fun _ => FeatureEngineering.raise Py.ValueError)
    (fun _ => FeatureEngineering.ret "scored_leads.csv")
    (fun _ => true) (fun _ => false) (fun _ => 0)
    [("businesses_1.csv", sample_frame)]
  = ([FeatureEngineering.Loading "businesses_1.csv";
      FeatureEngineering.Loaded 2;
      FeatureEngineering.CleaningData; FeatureEngineering.DataCleaned 2;
      FeatureEngineering.EngineeringFeatures;
      FeatureEngineering.FeaturesEngineered 2;
      FeatureEngineering.CalculatingScores; FeatureEngineering.Scored 2;
      FeatureEngineering.Validation;
      FeatureEngineering.Failed Py.ValueError],
     Py.Raise Py.ValueError).
Proof. reflexivity. Qed.

(** ** Which leads the filters keep *)

Section Kept.
Import Py FeatureEngineering ExportLeads.
Context {sorting : SortValues}.

(** The leads of a vertical that reach the minimum score of its rule. *)
Definition qualifying (rule : Config.VerticalRule) (v : string)
    (df : list ScoredLead) : list ScoredLead :=
  filter (fun lead => Config.min_score rule <=? lead_score lead)
    (of_vertical v df).

(** The number of rows of [head n] on a frame of [q] rows. *)
Definition head_count (n : Z) (q : nat) : nat :=
  if 0 <=? n then Nat.min (Z.to_nat n) q else (q - Z.to_nat (- n))%nat.

Lemma frame_of_vertical rules df v rule :
  NoDup (keys rules) ->
  dict_get rules v = Some rule ->
  of_vertical v df <> [] ->
  dict_get (apply_vertical_filters rules df) v
  = Some (filter_vertical rule (of_vertical v df)).
Proof.
  intros Hnd Hrule Hne. unfold apply_vertical_filters.
  rewrite (filters_loop_get rules df [] v Hnd), Hrule.
  destruct (List.length (of_vertical v df) =? 0)%nat eqn:Hlen; [| reflexivity].
  apply length_zero_nil in Hlen. contradiction.
Qed.

Lemma filter_vertical_firstn rule v df :
  exists k,
    filter_vertical rule (of_vertical v df)
    = firstn k (sort_values (qualifying rule v df))
    /\ List.length (filter_vertical rule (of_vertical v df))
       = head_count (Config.target_count rule)
           (List.length (qualifying rule v df)).
Proof.
  unfold filter_vertical, head, head_count. fold (qualifying rule v df).
  rewrite (Permutation_length (sort_values_perm (qualifying rule v df))).
  destruct (0 <=? Config.target_count rule); eexists;
    (split; [reflexivity | rewrite length_firstn; lia]).
Qed.

(** X13: the frame of a vertical that has a rule and leads holds
    [min(target_count, q)] leads, where [q] leads of the vertical reach the
    minimum score; a negative target count instead drops that many leads
    from the end of the ranking. *)
Theorem kept_count :
  forall rules df v rule,
    NoDup (keys rules) ->
    dict_get rules v = Some rule ->
    of_vertical v df <> [] ->
    exists leads,
      dict_get (apply_vertical_filters rules df) v = Some leads
      /\ List.length leads
         = head_count (Config.target_count rule)
             (List.length (qualifying rule v df)).
Proof.
  intros rules df v rule Hnd Hrule Hne. eexists.
  split; [apply frame_of_vertical; eassumption |].
  destruct (filter_vertical_firstn rule v df) as [k [_ Hlen]]. exact Hlen.
Qed.

Lemma sorted_app_inv {A} (R : A -> A -> Prop) l1 l2 :
  StronglySorted R (l1 ++ l2) ->
  forall a b, In a l1 -> In b l2 -> R a b.
Proof.
  induction l1 as [| x l1 IH]; intros Hs a b Ha Hb; [contradiction |].
  cbn in Hs. inversion Hs as [| ? ? Hs' Hx]; subst.
  destruct Ha as [<- | Ha].
  - rewrite Forall_forall in Hx. apply Hx. apply in_or_app. right. exact Hb.
  - apply (IH Hs' a b Ha Hb).
Qed.

(** X14: the frame of a vertical holds its best leads: a lead of the
    vertical that reaches the minimum score and is not in the frame scores
    no more than any lead of the frame, and when the target count is at
    least the number of those leads the frame holds them all. *)
Theorem kept_leads_are_the_best :
  forall rules df v rule,
    NoDup (keys rules) ->
    dict_get rules v = Some rule ->
    of_vertical v df <> [] ->
    exists leads,
      dict_get (apply_vertical_filters rules df) v = Some leads
      /\ (forall x, In x (qualifying rule v df) ->
            In x leads
            \/ Forall (fun y => lead_score x <= lead_score y) leads)
      /\ (Z.of_nat (List.length (qualifying rule v df))
          <= Config.target_count rule ->
          Permutation (qualifying rule v df) leads).
Proof.
  intros rules df v rule Hnd Hrule Hne. eexists.
  split; [apply frame_of_vertical; eassumption |]. split.
  - intros x Hx.
    destruct (filter_vertical_firstn rule v df) as [k [-> _]].
    apply (Permutation_in _ (sort_values_perm _)) in Hx.
    rewrite <- (firstn_skipn k (sort_values (qualifying rule v df))) in Hx.
    apply in_app_or in Hx. destruct Hx as [Hx | Hx]; [left; exact Hx |].
    right. apply Forall_forall. intros y Hy.
    pose proof (sort_values_sorted (qualifying rule v df)) as Hs.
    rewrite <- (firstn_skipn k (sort_values (qualifying rule v df))) in Hs.
    apply (sorted_app_inv _ _ _ Hs y x Hy Hx).
  - intros Hall. unfold filter_vertical. fold (qualifying rule v df).
    rewrite head_all.
    + apply sort_values_perm.
    + rewrite <- (Permutation_length (sort_values_perm _)). exact Hall.
Qed.

Lemma nodup_firstn {A} k (l : list A) : NoDup l -> NoDup (firstn k l).
Proof.
  intros H. revert k. induction H as [| x l Hx _ IH]; intros [| k]; cbn;
    try constructor.
  - intros Hin. apply Hx. apply in_firstn in Hin. exact Hin.
  - apply IH.
Qed.

Lemma filter_vertical_nodup rule df :
  NoDup df -> NoDup (filter_vertical rule df).
Proof.
  intros H. unfold filter_vertical.
  destruct (head_firstn (Config.target_count rule)
              (sort_values (filter (fun lead =>
                 Config.min_score rule <=? lead_score lead) df))) as [k ->].
  apply nodup_firstn.
  apply (Permutation_NoDup (sort_values_perm _)).
  apply NoDup_filter. exact H.
Qed.

Lemma flatten_entry_in df v rule x :
  In x (flatten (vertical_entry df (v, rule))) ->
  In x df /\ vertical_of x = v.
Proof.
  cbn [vertical_entry].
  destruct (List.length (of_vertical v df) =? 0)%nat; [contradiction |].
  unfold flatten, values. cbn [map snd List.concat]. rewrite app_nil_r.
  intros Hin. apply filter_vertical_in in Hin. destruct Hin as [Hin _].
  apply of_vertical_in in Hin. exact Hin.
Qed.

Lemma flatten_entries_in df rules x :
  In x (flatten (flat_map (vertical_entry df) rules)) ->
  In x df /\ In (vertical_of x) (keys rules).
Proof.
  induction rules as [| [v rule] rules IH]; [contradiction |].
  cbn [flat_map]. rewrite flatten_app. intros Hin.
  apply in_app_or in Hin. destruct Hin as [Hin | Hin].
  - apply flatten_entry_in in Hin. destruct Hin as [Hin <-].
    split; [exact Hin | left; reflexivity].
  - destruct (IH Hin) as [Hdf Hkey]. split; [exact Hdf | right; exact Hkey].
Qed.

(** X15: every lead of the result is a lead of the frame whose vertical has
    a rule, so the leads of the other verticals are never exported; and a
    frame without repeated rows gives a result without repeated leads, no
    lead being in the frames of two verticals. *)
Theorem exported_leads_come_once :
  forall rules df,
    NoDup (keys rules) ->
    let out := apply_vertical_filters rules df in
    (forall lead, In lead (flatten out) ->
       In lead df /\ dict_get rules (vertical_of lead) <> None)
    /\ (NoDup df -> NoDup (flatten out)).
Proof.
  intros rules df Hnd out. subst out.
  rewrite (apply_vertical_filters_entries rules df Hnd). split.
  - intros lead Hin. apply flatten_entries_in in Hin.
    destruct Hin as [Hdf Hkey]. split; [exact Hdf |].
    intros Hnone. unfold keys in Hkey. apply in_map_iff in Hkey.
    destruct Hkey as [[k rule] [Hk Hin]]. cbn in Hk. subst k.
    rewrite (dict_get_in rules _ rule Hnd Hin) in Hnone. discriminate.
  - intros Hdf. clear -Hnd Hdf.
    induction rules as [| [v rule] rules IH]; [constructor |].
    inversion Hnd as [| ? ? Hnot Hnd']; subst.
    cbn [flat_map]. rewrite flatten_app. apply NoDup_app.
    + cbn [vertical_entry].
      destruct (List.length (of_vertical v df) =? 0)%nat; [constructor |].
      unfold flatten, values. cbn [map snd List.concat]. rewrite app_nil_r.
      apply filter_vertical_nodup. apply NoDup_filter. exact Hdf.
    + apply IH. exact Hnd'.
    + intros x Hx Hx'. apply flatten_entry_in in Hx. destruct Hx as [_ <-].
      apply flatten_entries_in in Hx'. destruct Hx' as [_ Hkey].
      apply Hnot. exact Hkey.
Qed.

(** X16: with the shipped weights and rules every exported lead scores
    between 50 and 100 and has a priority; a lead of priority Low is only
    exported for restaurants, with a score of exactly 50. *)
Theorem exported_leads_have_priority :
  forall now rows v leads,
    dict_get (apply_vertical_filters Config.VERTICAL_RULES
                (calculate_lead_score Config.SCORING_WEIGHTS now rows)) v
    = Some leads ->
    Forall (fun lead =>
              50 <= lead_score lead <= 100
              /\ priority lead <> None
              /\ (priority lead = Some "Low" ->
                  v = "restaurants" /\ lead_score lead = 50)) leads.
Proof.
  intros now rows v leads. unfold apply_vertical_filters.
  rewrite (filters_loop_get _ _ [] v shipped_rules_keys).
  destruct (dict_get Config.VERTICAL_RULES v) as [rule |] eqn:Hrule;
    [| discriminate].
  destruct (List.length _ =? 0)%nat; [discriminate |].
  intros [= <-]. apply Forall_forall. intros lead Hin.
  apply filter_vertical_in in Hin. destruct Hin as [Hin Hmin].
  apply of_vertical_in in Hin. destruct Hin as [Hin _].
  unfold calculate_lead_score in Hin. apply in_map_iff in Hin.
  destruct Hin as [row [<- _]].
  destruct (shipped_lead_range now row) as [_ Hrange].
  rewrite priority_eq, cut_priority.
  assert (Hmins : (v = "restaurants" /\ Config.min_score rule = 50)
                  \/ 55 <= Config.min_score rule).
  { unfold Config.VERTICAL_RULES in Hrule. cbn [dict_get] in Hrule.
    destruct (String.eqb "restaurants" v) eqn:E1.
    { apply String.eqb_eq in E1. injection Hrule as <-.
      left. split; [symmetry; exact E1 | reflexivity]. }
    destruct (String.eqb "grocery" v).
    { injection Hrule as <-. right. cbn. lia. }
    destruct (String.eqb "retail" v); [| discriminate].
    injection Hrule as <-. right. cbn. lia. }
  set (score := lead_score (score_lead Config.SCORING_WEIGHTS now row)) in *.
  destruct (Z.leb_spec score 0), (Z.leb_spec score 50), (Z.leb_spec score 70),
    (Z.leb_spec score 85), (Z.leb_spec score 100);
    try lia; (split; [lia |]); (split; [discriminate |]);
    intros Hlow; try discriminate.
  destruct Hmins as [[-> Hmin50] | Hmin55]; [split; [reflexivity | lia] | lia].
Qed.

End Kept.

Lemma kept_count_witness :
  exists leads,
    Py.dict_get (ExportLeads.apply_vertical_filters (sorting := stable_sort)
                   Config.VERTICAL_RULES [weak_lead; strong_lead])
      "restaurants" = Some leads
    /\ List.length leads = 1%nat.
Proof.
  apply (@kept_count stable_sort Config.VERTICAL_RULES
           [weak_lead; strong_lead] "restaurants"
           {| Config.min_score := 50; Config.target_count := 200;
              Config.sla_days := 7;
              Config.priority_categories := ["pizza"; "chinese"; "mexican"] |}).
  - exact shipped_rules_keys.
  - reflexivity.
  - discriminate.
Defined.

Lemma kept_leads_are_the_best_witness :
  let rule := {| Config.min_score := 50; Config.target_count := 200;
                 Config.sla_days := 7;
                 Config.priority_categories := ["pizza"; "chinese"; "mexican"] |} in
  exists leads,
    Py.dict_get (ExportLeads.apply_vertical_filters (sorting := stable_sort)
                   Config.VERTICAL_RULES [weak_lead; strong_lead])
      "restaurants" = Some leads
    /\ (forall x, In x (qualifying rule "restaurants" [weak_lead; strong_lead]) ->
          In x leads
          \/ Forall (fun y => FeatureEngineering.lead_score x
                              <= FeatureEngineering.lead_score y) leads)
    /\ (Z.of_nat (List.length
                    (qualifying rule "restaurants" [weak_lead; strong_lead]))
        <= Config.target_count rule ->
        Permutation (qualifying rule "restaurants" [weak_lead; strong_lead])
          leads).
Proof.
  intros rule.
  apply (@kept_leads_are_the_best stable_sort Config.VERTICAL_RULES
           [weak_lead; strong_lead] "restaurants" rule).
  - exact shipped_rules_keys.
  - reflexivity.
  - discriminate.
Defined.

Lemma exported_leads_come_once_witness :
  let out := ExportLeads.apply_vertical_filters (sorting := stable_sort)
               Config.VERTICAL_RULES [weak_lead; strong_lead] in
  (forall lead, In lead (ExportLeads.flatten out) ->
     In lead [weak_lead; strong_lead]
     /\ Py.dict_get Config.VERTICAL_RULES (ExportLeads.vertical_of lead) <> None)
  /\ (NoDup [weak_lead; strong_lead] -> NoDup (ExportLeads.flatten out)).
Proof.
  apply (@exported_leads_come_once stable_sort Config.VERTICAL_RULES
           [weak_lead; strong_lead]).
  exact shipped_rules_keys.
Defined.

Lemma exported_leads_have_priority_witness :
  Forall (fun lead =>
            50 <= FeatureEngineering.lead_score lead <= 100
            /\ FeatureEngineering.priority lead <> None
            /\ (FeatureEngineering.priority lead = Some "Low" ->
                "restaurants" = "restaurants"
                /\ FeatureEngineering.lead_score lead = 50))
         [strong_lead].
Proof.
  apply (@exported_leads_have_priority stable_sort (fun _ => 0)
           [FeatureEngineering.featured weak_lead;
            FeatureEngineering.featured strong_lead] "restaurants").
  reflexivity.
Defined.

(** * The export run

    [main] of [export_leads.py] with the functions it calls, and the task
    [task_export_csv] of the scheduler that calls the same functions. What
    the run writes is kept as a list of outputs; the names of the files,
    which hold the time of the run, are left out, and a CSV is the frame
    whose export columns it holds. *)

Module ExportRun.
Import Py FeatureEngineering ExportLeads.

Inductive exn : Type :=
| FileNotFoundError
| ValueError
| ZeroDivisionError.

Inductive output : Type :=
| VerticalCsv (vertical : string) (rows : list ScoredLead)
| CombinedCsv (rows : list ScoredLead)
| SalesSummary (total_leads : nat) (by_vertical : list (string * nat * nat))
| Reported (vertical : string)
| NoLeadsToExport
| Failed (e : exn).

(** A file name matched by the pattern [scored_leads_*.csv]. *)
Definition matches_pattern (file : string) : bool :=
  prefix "scored_leads_" file && endswith ".csv" (drop 13 file).

(** The processed data directory: file names with the rows of each CSV. *)
Definition directory : Type := list (string * list ScoredLead).

Definition glob (dir : directory) : list (string * list ScoredLead) :=
  filter (fun f => matches_pattern (fst f)) dir.

Fixpoint max_file (latest : string * list ScoredLead)
    (files : list (string * list ScoredLead)) : string * list ScoredLead :=
  match files with
  | [] => latest
  | f :: files' =>
      if String.ltb (fst latest) (fst f) then max_file f files'
      else max_file latest files'
  end.

Definition load_latest_processed_data (dir : directory)
    : list ScoredLead + exn :=
  match glob dir with
  | [] => inr FileNotFoundError
  | f :: files => inl (snd (max_file f files))
  end.

Section Exporting.
Context {sorting : SortValues}.

(** One CSV for each vertical of the dictionary, in its order. *)
Definition export_to_csv (vertical_dfs : dict (list ScoredLead)) : list output :=
  map (fun '(vertical, df) => VerticalCsv vertical df) vertical_dfs.

(** [pd.concat] raises ValueError when it is given no frame. *)
Definition create_combined_export (vertical_dfs : dict (list ScoredLead))
    : list ScoredLead + exn :=
  match vertical_dfs with
  | [] => inr ValueError
  | _ :: _ => inl (sort_values (flatten vertical_dfs))
  end.

(** [len(df[df['priority'].isin(['High', 'Critical'])])]. *)
Definition high_priority (df : list ScoredLead) : nat :=
  List.length
    (filter (fun lead =>
               match priority lead with
               | Some label => isin label ["High"; "Critical"]
               | None => false
               end) df).

Definition total_leads (vertical_dfs : dict (list ScoredLead)) : nat :=
  list_sum (map (fun item => List.length (snd item)) vertical_dfs).

(** The summary file: the total and, for each vertical, its number of leads
    and of leads of priority High or Critical. The average score, a float,
    is left out. *)
Definition generate_sales_summary (vertical_dfs : dict (list ScoredLead))
    : output :=
  SalesSummary (total_leads vertical_dfs)
    (map (fun '(vertical, df) =>
            (vertical, List.length df, high_priority df)) vertical_dfs).

(** The report divides by [len(df)] for each vertical: the first empty
    frame raises ZeroDivisionError. *)
Fixpoint export_summary_report (vertical_dfs : dict (list ScoredLead))
    : list output * option exn :=
  match vertical_dfs with
  | [] => ([], None)
  | (vertical, df) :: rest =>
      if (List.length df =? 0)%nat then ([], Some ZeroDivisionError)
      else let '(reported, raised) := export_summary_report rest in
           (Reported vertical :: reported, raised)
  end.

(** The body of [main] after the loading. *)
Definition export_frame (df : list ScoredLead) : list output * (unit + exn) :=
  let vertical_dfs := apply_vertical_filters Config.VERTICAL_RULES df in
  match vertical_dfs with
  | [] => ([NoLeadsToExport], inl tt)
  | _ :: _ =>
      let exported_files := export_to_csv vertical_dfs in
      match create_combined_export vertical_dfs with
      | inr e => (exported_files, inr e)
      | inl combined =>
          let written :=
            exported_files
            ++ [CombinedCsv combined; generate_sales_summary vertical_dfs] in
          match export_summary_report vertical_dfs with
          | (reported, Some e) => (written ++ reported, inr e)
          | (reported, None) => (written ++ reported, inl tt)
          end
      end
  end.

(** An exception is logged and raised again. *)
Definition reraise {A} (run : list output * (A + exn)) : list output * (A + exn) :=
  match run with
  | (written, inr e) => (written ++ [Failed e], inr e)
  | (written, inl a) => (written, inl a)
  end.

Definition main (dir : directory) : list output * (unit + exn) :=
  reraise
    match load_latest_processed_data dir with
    | inr e => ([], inr e)
    | inl df => export_frame df
    end.

(** [task_export_csv] of the scheduler: the same calls without the test for
    an empty dictionary and without the report; it returns the verticals of
    the exported files. *)
Definition task_export_csv (dir : directory) : list output * (list string + exn) :=
  reraise
    match load_latest_processed_data dir with
    | inr e => ([], inr e)
    | inl df =>
        let vertical_dfs := apply_vertical_filters Config.VERTICAL_RULES df in
        let exported_files := export_to_csv vertical_dfs in
        match create_combined_export vertical_dfs with
        | inr e => (exported_files, inr e)
        | inl combined =>
            (exported_files
             ++ [CombinedCsv combined; generate_sales_summary vertical_dfs],
             inl (keys vertical_dfs))
        end
    end.

End Exporting.

End ExportRun.

(** ** Properties of the export run *)

Section ExportProperties.
Import Py FeatureEngineering ExportLeads.
Context {sorting : SortValues}.

Lemma report_outcome (vertical_dfs : dict (list ScoredLead)) :
  (snd (ExportRun.export_summary_report vertical_dfs)
   = Some ExportRun.ZeroDivisionError
   /\ exists v, In (v, []) vertical_dfs)
  \/ (snd (ExportRun.export_summary_report vertical_dfs) = None
      /\ forall v, ~ In (v, []) vertical_dfs).
Proof.
  induction vertical_dfs as [| [v df] rest IH]; cbn [ExportRun.export_summary_report].
  - right. split; [reflexivity | intros v []].
  - destruct (List.length df =? 0)%nat eqn:Hlen.
    + apply length_zero_nil in Hlen. subst df.
      left. split; [reflexivity |]. exists v. left. reflexivity.
    + destruct (ExportRun.export_summary_report rest) as [reported raised].
      cbn [snd] in *. destruct IH as [[-> [v' Hin]] | [-> Hnone]].
      * left. split; [reflexivity |]. exists v'. right. exact Hin.
      * right. split; [reflexivity |]. intros v' [Heq | Hin].
        -- injection Heq as _ ->. discriminate.
        -- apply (Hnone v' Hin).
Qed.

Lemma entries_in df rules v rows :
  In (v, rows) (flat_map (vertical_entry df) rules) <->
  exists rule,
    In (v, rule) rules /\ of_vertical v df <> []
    /\ rows = filter_vertical rule (of_vertical v df).
Proof.
  rewrite in_flat_map. split.
  - intros [[k rule] [Hin Hentry]]. cbn [vertical_entry] in Hentry.
    destruct (List.length (of_vertical k df) =? 0)%nat eqn:Hlen;
      [contradiction |].
    destruct Hentry as [Heq | []]. injection Heq as -> <-.
    exists rule. split; [exact Hin |]. split; [| reflexivity].
    intros Hnil. apply length_zero_nil in Hnil. congruence.
  - intros [rule (Hin & Hne & ->)]. exists (v, rule). split; [exact Hin |].
    cbn [vertical_entry].
    destruct (List.length (of_vertical v df) =? 0)%nat eqn:Hlen.
    + apply length_zero_nil in Hlen. contradiction.
    + left. reflexivity.
Qed.

Lemma filter_vertical_empty rule v df :
  0 < Config.target_count rule ->
  filter_vertical rule (of_vertical v df) = [] <-> qualifying rule v df = [].
Proof.
  intros Htc.
  destruct (filter_vertical_firstn rule v df) as [k [_ Hlen]].
  unfold head_count in Hlen.
  destruct (Z.leb_spec 0 (Config.target_count rule)); [| lia].
  split; intros Hnil.
  - rewrite Hnil in Hlen. cbn in Hlen.
    destruct (qualifying rule v df); [reflexivity | cbn in Hlen; lia].
  - rewrite Hnil in Hlen. rewrite Nat.min_0_r in Hlen.
    destruct (filter_vertical rule (of_vertical v df));
      [reflexivity | discriminate].
Qed.

Lemma shipped_rules_positive_counts v rule :
  In (v, rule) Config.VERTICAL_RULES -> 0 < Config.target_count rule.
Proof.
  intros Hin. cbn in Hin.
  repeat (destruct Hin as [Hin | Hin]; [injection Hin as <- <-; cbn; lia |]).
  contradiction.
Qed.

(** X17: once the processed frame is loaded, [main] raises nothing or
    ZeroDivisionError, and it raises ZeroDivisionError exactly when some
    vertical of the rules has leads in the frame of which none reaches the
    minimum score; by then the CSV of every vertical of the result has been
    written. *)
Theorem export_divides_by_empty_vertical :
  forall dir df,
    ExportRun.load_latest_processed_data dir = inl df ->
    let run := ExportRun.main dir in
    (snd run = inr ExportRun.ZeroDivisionError <->
     exists v rule,
       In (v, rule) Config.VERTICAL_RULES
       /\ of_vertical v df <> [] /\ qualifying rule v df = [])
    /\ (snd run = inl tt \/ snd run = inr ExportRun.ZeroDivisionError)
    /\ (snd run = inr ExportRun.ZeroDivisionError ->
        forall v rows,
          In (v, rows) (apply_vertical_filters Config.VERTICAL_RULES df) ->
          In (ExportRun.VerticalCsv v rows) (fst run)).
Proof.
  intros dir df Hload run. subst run.
  unfold ExportRun.main. rewrite Hload. unfold ExportRun.export_frame.
  rewrite (apply_vertical_filters_entries _ df shipped_rules_keys).
  set (out := flat_map (vertical_entry df) Config.VERTICAL_RULES).
  assert (Hempty : (exists v, In (v, []) out) <->
            exists v rule,
              In (v, rule) Config.VERTICAL_RULES
              /\ of_vertical v df <> [] /\ qualifying rule v df = []).
  { split.
    - intros [v Hin]. apply entries_in in Hin.
      destruct Hin as [rule (Hin & Hne & Hnil)]. exists v, rule.
      split; [exact Hin |]. split; [exact Hne |].
      apply filter_vertical_empty;
        [apply (shipped_rules_positive_counts v), Hin | symmetry; exact Hnil].
    - intros [v [rule (Hin & Hne & Hnil)]]. exists v. apply entries_in.
      exists rule. split; [exact Hin |]. split; [exact Hne |].
      symmetry. apply filter_vertical_empty;
        [apply (shipped_rules_positive_counts v), Hin | exact Hnil]. }
  rewrite <- Hempty.
  pose proof (report_outcome out) as Hreport.
  assert (Hcsv : forall v rows,
            In (v, rows) out ->
            In (ExportRun.VerticalCsv v rows) (ExportRun.export_to_csv out)).
  { intros v rows Hin. unfold ExportRun.export_to_csv.
    apply in_map_iff. exists (v, rows). split; [reflexivity | exact Hin]. }
  destruct out as [| item out'] eqn:Hout.
  - cbn. split; [| split].
    + split; [discriminate | intros [v []]].
    + left. reflexivity.
    + discriminate.
  - cbn [ExportRun.create_combined_export].
    destruct (ExportRun.export_summary_report (item :: out'))
      as [reported raised] eqn:Hrep.
    cbn [snd] in Hreport.
    destruct Hreport as [[-> Hex] | [-> Hnone]];
      cbn [ExportRun.reraise fst snd].
    + split; [| split].
      * split; [intros _; exact Hex | reflexivity].
      * right. reflexivity.
      * intros _ v rows Hin.
        apply in_or_app. left. apply in_or_app. left.
        apply in_or_app. left. apply Hcsv, Hin.
    + split; [| split].
      * split; [discriminate |]. intros [v Hin]. exfalso.
        apply (Hnone v Hin).
      * left. reflexivity.
      * discriminate.
Qed.

(** X18: the result of the filters is empty exactly when no vertical of the
    rules has a lead in the loaded frame. Then [main] reports that there is
    nothing to export and returns without writing, whereas the scheduler
    task raises the ValueError of [pd.concat]; otherwise the task returns
    the verticals it exported. *)
Theorem empty_result_main_and_task :
  forall dir df,
    ExportRun.load_latest_processed_data dir = inl df ->
    let out := apply_vertical_filters Config.VERTICAL_RULES df in
    ((forall v rule, In (v, rule) Config.VERTICAL_RULES ->
                     of_vertical v df = []) <-> out = [])
    /\ (out = [] ->
        ExportRun.main dir = ([ExportRun.NoLeadsToExport], inl tt)
        /\ ExportRun.task_export_csv dir
           = ([ExportRun.Failed ExportRun.ValueError],
              inr ExportRun.ValueError))
    /\ (out <> [] -> snd (ExportRun.task_export_csv dir) = inl (keys out)).
Proof.
  intros dir df Hload out. subst out.
  unfold ExportRun.main, ExportRun.task_export_csv, ExportRun.export_frame.
  rewrite Hload.
  split; [| split].
  - rewrite (apply_vertical_filters_entries _ df shipped_rules_keys). split.
    + intros Hall.
      destruct (flat_map (vertical_entry df) Config.VERTICAL_RULES)
        as [| [v rows] rest] eqn:Hout; [reflexivity |].
      assert (Hin : In (v, rows)
                      (flat_map (vertical_entry df) Config.VERTICAL_RULES))
        by (rewrite Hout; left; reflexivity).
      apply entries_in in Hin. destruct Hin as [rule (Hin & Hne & _)].
      exfalso. apply Hne. apply (Hall v rule Hin).
    + intros Hout v rule Hin.
      destruct (of_vertical v df) as [| lead leads] eqn:Hv; [reflexivity |].
      assert (Hin' : In (v, filter_vertical rule (of_vertical v df))
                       (flat_map (vertical_entry df) Config.VERTICAL_RULES)).
      { apply entries_in. exists rule. split; [exact Hin |].
        split; [rewrite Hv; discriminate | reflexivity]. }
      rewrite Hout in Hin'. contradiction.
  - intros ->. split; reflexivity.
  - intros Hne.
    destruct (apply_vertical_filters Config.VERTICAL_RULES df)
      as [| item rest]; [contradiction | reflexivity].
Qed.

Lemma length_concat {A} (ls : list (list A)) :
  List.length (List.concat ls) = list_sum (map (@List.length A) ls).
Proof.
  induction ls as [| l ls IH]; cbn; [reflexivity |].
  rewrite length_app, IH. reflexivity.
Qed.

(** X19: for a dictionary that is not empty the combined file holds the
    leads of all its frames and no other, in descending order of score, and
    as many rows as the total of the summary file. *)
Theorem combined_export_holds_all_leads :
  forall vertical_dfs,
    vertical_dfs <> [] ->
    exists combined,
      ExportRun.create_combined_export vertical_dfs = inl combined
      /\ Permutation (flatten vertical_dfs) combined
      /\ StronglySorted descending combined
      /\ List.length combined = ExportRun.total_leads vertical_dfs.
Proof.
  intros vertical_dfs Hne. exists (sort_values (flatten vertical_dfs)).
  split; [destruct vertical_dfs; [contradiction | reflexivity] |].
  split; [apply sort_values_perm |].
  split; [apply sort_values_sorted |].
  rewrite <- (Permutation_length (sort_values_perm _)).
  unfold flatten, values, ExportRun.total_leads.
  rewrite length_concat, map_map. reflexivity.
Qed.

End ExportProperties.

(** A lead as the pipeline scores it whose vertical has no rule. *)
Definition other_lead : FeatureEngineering.ScoredLead :=
  FeatureEngineering.score_lead Config.SCORING_WEIGHTS (fun _ => 0)
    (sample_row 600 true 0).

Lemma export_divides_by_empty_vertical_witness :
  let run := ExportRun.main (sorting := stable_sort)
               [("scored_leads_1.csv", [weak_lead])] in
  (snd run = inr ExportRun.ZeroDivisionError <->
   exists v rule,
     In (v, rule) Config.VERTICAL_RULES
     /\ of_vertical v [weak_lead] <> [] /\ qualifying rule v [weak_lead] = [])
  /\ (snd run = inl tt \/ snd run = inr ExportRun.ZeroDivisionError)
  /\ (snd run = inr ExportRun.ZeroDivisionError ->
      forall v rows,
        In (v, rows) (ExportLeads.apply_vertical_filters (sorting := stable_sort)
                        Config.VERTICAL_RULES [weak_lead]) ->
        In (ExportRun.VerticalCsv v rows) (fst run)).
Proof.
  apply (@export_divides_by_empty_vertical stable_sort
           [("scored_leads_1.csv", [weak_lead])] [weak_lead]).
  reflexivity.
Defined.

(** On that directory the run writes three files and then fails. *)
Example export_of_a_weak_lead :
  ExportRun.main (sorting := stable_sort) [("scored_leads_1.csv", [weak_lead])]
  = ([ExportRun.VerticalCsv "restaurants" [];
      ExportRun.CombinedCsv [];
      ExportRun.SalesSummary 0 [("restaurants", 0%nat, 0%nat)];
      ExportRun.Failed ExportRun.ZeroDivisionError],
     inr ExportRun.ZeroDivisionError).
Proof. reflexivity. Qed.

Lemma empty_result_main_and_task_witness :
  let out := ExportLeads.apply_vertical_filters (sorting := stable_sort)
               Config.VERTICAL_RULES [other_lead] in
  ((forall v rule, In (v, rule) Config.VERTICAL_RULES ->
                   of_vertical v [other_lead] = []) <-> out = [])
  /\ (out = [] ->
      ExportRun.main (sorting := stable_sort)
        [("scored_leads_1.csv", [other_lead])]
      = ([ExportRun.NoLeadsToExport], inl tt)
      /\ ExportRun.task_export_csv (sorting := stable_sort)
           [("scored_leads_1.csv", [other_lead])]
         = ([ExportRun.Failed ExportRun.ValueError], inr ExportRun.ValueError))
  /\ (out <> [] ->
      snd (ExportRun.task_export_csv (sorting := stable_sort)
             [("scored_leads_1.csv", [other_lead])])
      = inl (Py.keys out)).
Proof.
  apply (@empty_result_main_and_task stable_sort
           [("scored_leads_1.csv", [other_lead])] [other_lead]).
  reflexivity.
Defined.

Lemma combined_export_holds_all_leads_witness :
  exists combined,
    ExportRun.create_combined_export (sorting := stable_sort)
      [("restaurants", [strong_lead]); ("grocery", [])] = inl combined
    /\ Permutation
         (ExportLeads.flatten [("restaurants", [strong_lead]); ("grocery", [])])
         combined
    /\ StronglySorted ExportLeads.descending combined
    /\ List.length combined
       = ExportRun.total_leads [("restaurants", [strong_lead]); ("grocery", [])].
Proof.
  apply (@combined_export_holds_all_leads stable_sort
           [("restaurants", [strong_lead]); ("grocery", [])]).
  discriminate.
Defined.

(** * The collector

    [collect_data] of [data_collection.py]. The two calls of the service are
    arguments: [search_places call city query] is the list of the place
    identifiers that the search number [call] returns (an identifier may be
    missing), and [get_place_details] the details of a place, [None] when
    the request fails or returns an empty dictionary. [now i] is the date of
    the clock when the business number [i] is recorded. *)

Module Collector.
Import Py.

(** The fields of the details that the collector reads. *)
Record Details : Type := {
  name : option string;
  formatted_address : option string;
  formatted_phone_number : option string;
  rating : option Q;
  user_ratings_total : option Z;
  price_level : option Z;
  types : list string;
  website : option string
}.

Definition id_eqb (a b : option string) : bool :=
  match a, b with
  | Some x, Some y => String.eqb x y
  | None, None => true
  | _, _ => false
  end.

(** [place_id in seen_place_ids]. *)
Definition seen_in (place_id : option string) (seen : list (option string))
    : bool :=
  existsb (id_eqb place_id) seen.

Section Collect.

Variable search_places : nat -> string -> string -> list (option string).
Variable get_place_details : option string -> option Details.
Variable now : nat -> Z.

Definition business (place_id : option string) (details : Details)
    (city : string) (recorded : nat) : Raw.t :=
  {| Raw.place_id := place_id;
     Raw.name := name details;
     Raw.address := formatted_address details;
     Raw.phone := formatted_phone_number details;
     Raw.rating := rating details;
     Raw.review_count := user_ratings_total details;
     Raw.price_level := price_level details;
     Raw.types := Some (String.concat "," (types details));
     Raw.website := website details;
     Raw.source_location := Some city;
     Raw.fetched_at := now recorded |}.

(** The state of the loops: [all_businesses] and [seen_place_ids]. *)
Definition state : Type := (list Raw.t * list (option string))%type.

(** The loop over the places of one search. *)
Fixpoint visit_places (city : string) (places : list (option string))
    (st : state) : state :=
  match places with
  | [] => st
  | place_id :: places' =>
      let '(all_businesses, seen_place_ids) := st in
      if seen_in place_id seen_place_ids then visit_places city places' st
      else
        let seen_place_ids := place_id :: seen_place_ids in
        match get_place_details place_id with
        | Some details =>
            visit_places city places'
              (all_businesses
               ++ [business place_id details city (List.length all_businesses)],
               seen_place_ids)
        | None => visit_places city places' (all_businesses, seen_place_ids)
        end
  end.

(** The loop over the queries for one city; [call] counts the searches. *)
Fixpoint search_queries (call : nat) (city : string) (queries : list string)
    (st : state) : nat * state :=
  match queries with
  | [] => (call, st)
  | query :: queries' =>
      search_queries (S call) city queries'
        (visit_places city (search_places call city query) st)
  end.

Fixpoint search_cities (call : nat) (cities queries : list string)
    (st : state) : state :=
  match cities with
  | [] => st
  | city :: cities' =>
      let '(call', st') := search_queries call city queries st in
      search_cities call' cities' queries st'
  end.

(** The rows of the frame that [collect_data] returns. *)
Definition collect_data (cities queries : list string) : list Raw.t :=
  fst (search_cities 0 cities queries ([], [])).

End Collect.

End Collector.

(** ** Properties of the collector *)

Section CollectorProperties.
Import Py.

Variable search_places : nat -> string -> string -> list (option string).
Variable get_place_details : option string -> option Collector.Details.
Variable now : nat -> Z.

Lemma id_eqb_eq a b : Collector.id_eqb a b = true <-> a = b.
Proof.
  destruct a as [x |], b as [y |]; cbn; try (split; congruence).
  rewrite String.eqb_eq. split; congruence.
Qed.

Lemma seen_in_iff place_id seen :
  Collector.seen_in place_id seen = true <-> In place_id seen.
Proof.
  unfold Collector.seen_in. rewrite existsb_exists. split.
  - intros [x [Hin Hx]]. apply id_eqb_eq in Hx. subst. exact Hin.
  - intros Hin. exists place_id. split; [exact Hin | apply id_eqb_eq; reflexivity].
Qed.

(** What the loops keep true of a state for a list of cities. *)
Definition collected (cities : list string) (st : Collector.state) : Prop :=
  let '(all_businesses, seen_place_ids) := st in
  NoDup (map Raw.place_id all_businesses)
  /\ Forall (fun b =>
               In (Raw.place_id b) seen_place_ids
               /\ get_place_details (Raw.place_id b) <> None
               /\ exists city, In city cities
                                /\ Raw.source_location b = Some city)
            all_businesses.

Lemma visit_places_collected cities city places st :
  In city cities ->
  collected cities st ->
  collected cities
    (Collector.visit_places get_place_details now city places st).
Proof.
  intros Hcity. revert st.
  induction places as [| place_id places IH]; intros [businesses seen] Hst;
    [exact Hst |].
  cbn [Collector.visit_places].
  destruct (Collector.seen_in place_id seen) eqn:Hseen; [apply IH, Hst |].
  assert (Hnew : ~ In place_id seen).
  { intros Hin. apply seen_in_iff in Hin. congruence. }
  destruct Hst as [Hnd Hall].
  assert (Hall' : Forall (fun b =>
               In (Raw.place_id b) (place_id :: seen)
               /\ get_place_details (Raw.place_id b) <> None
               /\ exists city, In city cities
                                /\ Raw.source_location b = Some city)
            businesses).
  { eapply Forall_impl; [| exact Hall].
    intros b (Hin & Hd & Hc). split; [right; exact Hin | split; assumption]. }
  destruct (get_place_details place_id) as [details |] eqn:Hdetails.
  - apply IH. split.
    + rewrite map_app. cbn [map Collector.business Raw.place_id].
      apply NoDup_app; [exact Hnd | repeat constructor; intros [] |].
      intros a Ha [<- | []]. apply Hnew.
      apply in_map_iff in Ha. destruct Ha as [b [<- Hb]].
      rewrite Forall_forall in Hall. apply (Hall b Hb).
    + apply Forall_app. split; [exact Hall' |].
      constructor; [| constructor].
      cbn [Collector.business Raw.place_id Raw.source_location].
      split; [left; reflexivity |].
      split; [rewrite Hdetails; discriminate |].
      exists city. split; [exact Hcity | reflexivity].
  - apply IH. split; [exact Hnd | exact Hall'].
Qed.

Lemma search_queries_collected cities city queries call st :
  In city cities ->
  collected cities st ->
  collected cities
    (snd (Collector.search_queries search_places get_place_details now
            call city queries st)).
Proof.
  intros Hcity. revert call st.
  induction queries as [| query queries IH]; intros call st Hst; [exact Hst |].
  cbn [Collector.search_queries]. apply IH.
  apply visit_places_collected; assumption.
Qed.

Lemma search_cities_collected all_cities cities queries call st :
  incl cities all_cities ->
  collected all_cities st ->
  collected all_cities
    (Collector.search_cities search_places get_place_details now
       call cities queries st).
Proof.
  revert call st. induction cities as [| city cities IH];
    intros call st Hincl Hst; [exact Hst |].
  cbn [Collector.search_cities].
  pose proof (search_queries_collected all_cities city queries call st
                (Hincl city (or_introl eq_refl)) Hst) as Hq.
  destruct (Collector.search_queries search_places get_place_details now
              call city queries st) as [call' st'].
  apply IH; [| exact Hq].
  intros c Hc. apply Hincl. right. exact Hc.
Qed.

(** X20: whatever the service answers, the frame that [collect_data]
    returns holds no two businesses with the same place identifier; every
    business has details, and its source location is one of the cities that
    were searched. *)
Theorem collected_businesses_are_distinct :
  forall cities queries,
    let df := Collector.collect_data search_places get_place_details now
                cities queries in
    NoDup (map Raw.place_id df)
    /\ Forall (fun b =>
                 get_place_details (Raw.place_id b) <> None
                 /\ exists city, In city cities
                                  /\ Raw.source_location b = Some city) df.
Proof.
  intros cities queries df. subst df. unfold Collector.collect_data.
  pose proof (search_cities_collected cities cities queries 0 ([], [])
                (incl_refl cities)) as H.
  destruct (Collector.search_cities search_places get_place_details now 0
              cities queries ([], [])) as [businesses seen].
  destruct H as [Hnd Hall]; [split; constructor |].
  split; [exact Hnd |].
  eapply Forall_impl; [| exact Hall]. intros b (_ & Hd & Hc). split; assumption.
Qed.

End CollectorProperties.

(** A service that returns the same two places for every search, the second
    without details. *)
Example collecting_twice_keeps_one :
  map Raw.place_id
    (Collector.collect_data
       (fun _ _ _ => [Some "a"; Some "b"; Some "a"])
       (fun place_id =>
          match place_id with
          | Some "a" =>
              Some {| Collector.name := Some "A";
                      Collector.formatted_address := None;
                      Collector.formatted_phone_number := None;
                      Collector.rating := None;
                      Collector.user_ratings_total := None;
                      Collector.price_level := None;
                      Collector.types := ["restaurant"; "food"];
                      Collector.website := None |}
          | _ => None
          end)
       (fun _ => 0) CITIES ["pizza restaurants"; "supermarkets"])
  = [Some "a"].
Proof. reflexivity. Qed.
